(** * draw_dataset.py: the point store and the pointer controller

    A shallow embedding of the class [Dataset] of [draw_dataset.py] and
    the properties of its store (the parallel lists [myData] and
    [myPointsID]) and of its press / move / release handlers.

    Conventions of the embedding:
    - Python floats are exact rationals ([Q]); rounding is not modelled.
      Pointer events carry integer device coordinates ([Z]).
    - A method is a computation over the object state that either returns
      or raises; a raised exception keeps the mutations made before it.
    - The Tk canvas, numpy's generator and the file system are state
      components with the narrow interface the program uses of them. *)

From Stdlib Require Import QArith Qpower ZArith Lia Reals Qreals Lra.
From stdpp Require Import base gmap strings list.

Local Open Scope Q_scope.

(** ** Values *)

(** A cell of a table, a cell a colour option can hold: a number or text. *)
Inductive cell : Type :=
| CNum (q : Q)
| CStr (s : string).

(** A stored point: the triple [(x, y, color)] appended to [myData]. *)
Definition Point : Type := Q * Q * cell.

Definition point_x (p : Point) : Q := fst (fst p).
Definition point_y (p : Point) : Q := snd (fst p).
Definition point_color (p : Point) : cell := snd p.

(** Pointer event: [event.x], [event.y]. *)
Record Event : Type := { ev_x : Z; ev_y : Z }.

(** Exceptions the methods can raise. *)
Inductive exn : Type :=
| IndexError
| KeyError (k : string)
| TypeError
| TclError
| FileNotFoundError.

(** ** Python arithmetic on numbers *)

Definition Qlt_bool (a b : Q) : bool := negb (Qle_bool b a).

(** [min(a, b)]: the first argument unless the second is smaller. *)
Definition py_min (a b : Q) : Q := if Qlt_bool b a then b else a.

(** [max(a, b)]: the first argument unless the second is greater. *)
Definition py_max (a b : Q) : Q := if Qlt_bool a b then b else a.

(** [int(q)]: truncation toward zero. *)
Definition py_int (q : Q) : Z := Z.quot (Qnum q) (Zpos (Qden q)).

(** ** The canvas *)

(** An oval item: bounding box and [fill] option. *)
Record Oval : Type := { x0 : Q; y0 : Q; x1 : Q; y1 : Q; fill : cell }.

(** The canvas hands out item ids from a counter and maps the ids of live
    items to the items. *)
Record Canvas : Type := { next_id : nat; items : gmap nat Oval }.

Definition canvas_delete (h : nat) (c : Canvas) : Canvas :=
  {| next_id := next_id c; items := delete h (items c) |}.

(** [for h in hs: canvas.delete(h)] *)
Definition delete_all (hs : list nat) (c : Canvas) : Canvas :=
  foldl (fun acc h => canvas_delete h acc) c hs.

Definition canvas_add (o : Oval) (c : Canvas) : nat * Canvas :=
  (next_id c, {| next_id := S (next_id c); items := <[next_id c := o]> (items c) |}).

(** ** Tables *)

(** A [DataFrame]: column names and rows, each row one cell per column. *)
Record DataFrame : Type := { columns : list string; rows : list (list cell) }.

(** Position of a column name. *)
Fixpoint col_index (name : string) (cols : list string) : option nat :=
  match cols with
  | [] => None
  | c :: cs => if String.eqb c name then Some 0%nat else S <$> col_index name cs
  end.

(** [row[name]] *)
Definition row_get (cols : list string) (name : string) (row : list cell) : option cell :=
  match col_index name cols with
  | Some i => row !! i
  | None => None
  end.

(** [series.replace(mapping)] on one cell. *)
Definition replace_cell (f : cell -> cell) (i : nat) (row : list cell) : list cell :=
  match row !! i with
  | Some c => <[i := f c]> row
  | None => row
  end.

(** [{"red": 0, "green": 1, "blue": 2}] *)
Definition encode_color (c : cell) : cell :=
  match c with
  | CStr s =>
      if String.eqb s "red" then CNum 0
      else if String.eqb s "green" then CNum 1
      else if String.eqb s "blue" then CNum 2
      else c
  | CNum _ => c
  end.

(** [{0: "red", 1: "green", 2: "blue"}] *)
Definition decode_color (c : cell) : cell :=
  match c with
  | CNum q =>
      if Qeq_bool q 0 then CStr "red"
      else if Qeq_bool q 1 then CStr "green"
      else if Qeq_bool q 2 then CStr "blue"
      else c
  | CStr _ => c
  end.

(** [pd.DataFrame(myData, columns=["x", "y", "color"])] *)
Definition point_row (p : Point) : list cell :=
  [CNum (point_x p); CNum (point_y p); point_color p].

Definition frame_of_points (pts : list Point) : DataFrame :=
  {| columns := ["x"; "y"; "color"]%string; rows := point_row <$> pts |}.

(** [df[name] = df[name].replace(mapping)]; [None] when the column is
    missing (a [KeyError] in the source). *)
Definition replace_column (name : string) (f : cell -> cell) (df : DataFrame)
  : option DataFrame :=
  match col_index name (columns df) with
  | Some i => Some {| columns := columns df; rows := replace_cell f i <$> rows df |}
  | None => None
  end.

(** [enumerate(l, start)]; [enumerate(l)] is [enumerate(l, 0)]. *)
Definition enumerate {A : Type} (start : nat) (l : list A) : list (nat * A) :=
  combine (seq start (length l)) l.

(** [[val for i, val in enumerate(l, start) if i not in idx]] *)
Definition drop_indices_from {A : Type} (start : nat) (idx : list nat) (l : list A)
  : list A :=
  snd <$> List.filter (fun iv => negb (bool_decide (fst iv ∈ idx))) (enumerate start l).

Definition drop_indices {A : Type} (idx : list nat) (l : list A) : list A :=
  drop_indices_from 0 idx l.

(** [[i for i, val in enumerate(l, start) if f(val)]] *)
Definition indices_where {A : Type} (start : nat) (f : A -> bool) (l : list A)
  : list nat :=
  fst <$> List.filter (fun ic => f (snd ic)) (enumerate start l).

(** The comparison of [_delete_points]:
    [(x - event.x) ** 2 + (y - event.y) ** 2 <= threshold]. *)
Definition sq_dist (ex ey : Q) (coord : Point) : Q :=
  (point_x coord - ex) ^ 2 + (point_y coord - ey) ^ 2.

Definition near (ex ey threshold : Q) (coord : Point) : bool :=
  Qle_bool (sq_dist ex ey coord) threshold.

(** Outcome of a call: a value returned or an exception raised. *)
Inductive outcome (A : Type) : Type :=
| Return (a : A)
| Raise (e : exn).
Arguments Return {A} a.
Arguments Raise {A} e.

(** ** The object state and the methods *)

Section Program.

(** State of numpy's global generator, and [numpy.random.normal(loc,
    scale, size)], which returns the samples and the next state. *)
Context {Rng : Type}.
Variable normal : Rng -> Q -> Q -> nat -> list Q * Rng.

(** Tk's colour lookup: whether the canvas accepts a value as [fill]. *)
Variable color_ok : cell -> bool.

(** The attributes of [Dataset.__init__]. The two Tk variables are held
    by their current value, taken to be a number ([get()] on an entry
    with other text is left out). [np_random] and [files] are the ambient
    generator state and the file system (file name to the table its
    text denotes). *)
Record Dataset : Type := {
  myData : list Point;
  myPointsID : list nat;
  sizePoint : Q;
  classPoint : string;
  drawingArea : Canvas;
  sigmaScatter : Q;
  nbrPointsScatter : Q;
  last_drawn_x : option Z;
  last_drawn_y : option Z;
  threshold : Z;
  np_random : Rng;
  files : gmap string DataFrame
}.

Definition with_myData (v : list Point) (d : Dataset) : Dataset :=
  {| myData := v; myPointsID := myPointsID d; sizePoint := sizePoint d;
     classPoint := classPoint d; drawingArea := drawingArea d;
     sigmaScatter := sigmaScatter d; nbrPointsScatter := nbrPointsScatter d;
     last_drawn_x := last_drawn_x d; last_drawn_y := last_drawn_y d;
     threshold := threshold d; np_random := np_random d; files := files d |}.

Definition with_myPointsID (v : list nat) (d : Dataset) : Dataset :=
  {| myData := myData d; myPointsID := v; sizePoint := sizePoint d;
     classPoint := classPoint d; drawingArea := drawingArea d;
     sigmaScatter := sigmaScatter d; nbrPointsScatter := nbrPointsScatter d;
     last_drawn_x := last_drawn_x d; last_drawn_y := last_drawn_y d;
     threshold := threshold d; np_random := np_random d; files := files d |}.

Definition with_classPoint (v : string) (d : Dataset) : Dataset :=
  {| myData := myData d; myPointsID := myPointsID d; sizePoint := sizePoint d;
     classPoint := v; drawingArea := drawingArea d;
     sigmaScatter := sigmaScatter d; nbrPointsScatter := nbrPointsScatter d;
     last_drawn_x := last_drawn_x d; last_drawn_y := last_drawn_y d;
     threshold := threshold d; np_random := np_random d; files := files d |}.

Definition with_drawingArea (v : Canvas) (d : Dataset) : Dataset :=
  {| myData := myData d; myPointsID := myPointsID d; sizePoint := sizePoint d;
     classPoint := classPoint d; drawingArea := v;
     sigmaScatter := sigmaScatter d; nbrPointsScatter := nbrPointsScatter d;
     last_drawn_x := last_drawn_x d; last_drawn_y := last_drawn_y d;
     threshold := threshold d; np_random := np_random d; files := files d |}.

Definition with_sigmaScatter (v : Q) (d : Dataset) : Dataset :=
  {| myData := myData d; myPointsID := myPointsID d; sizePoint := sizePoint d;
     classPoint := classPoint d; drawingArea := drawingArea d;
     sigmaScatter := v; nbrPointsScatter := nbrPointsScatter d;
     last_drawn_x := last_drawn_x d; last_drawn_y := last_drawn_y d;
     threshold := threshold d; np_random := np_random d; files := files d |}.

Definition with_nbrPointsScatter (v : Q) (d : Dataset) : Dataset :=
  {| myData := myData d; myPointsID := myPointsID d; sizePoint := sizePoint d;
     classPoint := classPoint d; drawingArea := drawingArea d;
     sigmaScatter := sigmaScatter d; nbrPointsScatter := v;
     last_drawn_x := last_drawn_x d; last_drawn_y := last_drawn_y d;
     threshold := threshold d; np_random := np_random d; files := files d |}.

Definition with_last_drawn (vx vy : option Z) (d : Dataset) : Dataset :=
  {| myData := myData d; myPointsID := myPointsID d; sizePoint := sizePoint d;
     classPoint := classPoint d; drawingArea := drawingArea d;
     sigmaScatter := sigmaScatter d; nbrPointsScatter := nbrPointsScatter d;
     last_drawn_x := vx; last_drawn_y := vy;
     threshold := threshold d; np_random := np_random d; files := files d |}.

Definition with_np_random (v : Rng) (d : Dataset) : Dataset :=
  {| myData := myData d; myPointsID := myPointsID d; sizePoint := sizePoint d;
     classPoint := classPoint d; drawingArea := drawingArea d;
     sigmaScatter := sigmaScatter d; nbrPointsScatter := nbrPointsScatter d;
     last_drawn_x := last_drawn_x d; last_drawn_y := last_drawn_y d;
     threshold := threshold d; np_random := v; files := files d |}.

Definition with_files (v : gmap string DataFrame) (d : Dataset) : Dataset :=
  {| myData := myData d; myPointsID := myPointsID d; sizePoint := sizePoint d;
     classPoint := classPoint d; drawingArea := drawingArea d;
     sigmaScatter := sigmaScatter d; nbrPointsScatter := nbrPointsScatter d;
     last_drawn_x := last_drawn_x d; last_drawn_y := last_drawn_y d;
     threshold := threshold d; np_random := np_random d; files := v |}.

(** *** Computations that may raise *)

Definition M (A : Type) : Type := Dataset -> outcome A * Dataset.

Definition ret {A : Type} (a : A) : M A := fun d => (Return a, d).
Definition raise {A : Type} (e : exn) : M A := fun d => (Raise e, d).
Definition bind {A B : Type} (c : M A) (k : A -> M B) : M B :=
  fun d =>
    match c d with
    | (Return a, d') => k a d'
    | (Raise e, d') => (Raise e, d')
    end.
Definition get : M Dataset := fun d => (Return d, d).
Definition modify (f : Dataset -> Dataset) : M unit := fun d => (Return tt, f d).

Notation "'let!' x ':=' c 'in' k" := (bind c (fun x => k))
  (at level 10, x pattern, c at level 100, k at level 200).
Notation "c '>>' k" := (bind c (fun _ => k))
  (at level 90, right associativity).

(** [for a in l: body(a)] *)
Fixpoint for_each {A : Type} (l : list A) (body : A -> M unit) : M unit :=
  match l with
  | [] => ret tt
  | a :: l' => body a >> for_each l' body
  end.

(** State after a computation, and its outcome. *)
Definition exec {A : Type} (c : M A) (d : Dataset) : Dataset := snd (c d).
Definition result {A : Type} (c : M A) (d : Dataset) : outcome A := fst (c d).

(** *** Collaborators *)

(** [canvas.create_oval(x0, y0, x1, y1, fill=f)]: a [TclError] for an
    unknown colour, else a new item and its id. *)
Definition create_oval (bx0 by0 bx1 by1 : Q) (f : cell) : M nat :=
  fun d =>
    if color_ok f then
      let hc := canvas_add {| x0 := bx0; y0 := by0; x1 := bx1; y1 := by1; fill := f |}
                           (drawingArea d) in
      (Return (fst hc), with_drawingArea (snd hc) d)
    else (Raise TclError, d).

(** [canvas.delete(h)] *)
Definition delete_item (h : nat) : M unit :=
  modify (fun d => with_drawingArea (canvas_delete h (drawingArea d)) d).

(** [normal(loc=loc, scale=scale, size=size)] on the ambient generator. *)
Definition np_normal (loc scale : Q) (size : nat) : M (list Q) :=
  fun d =>
    let sr := normal (np_random d) loc scale size in
    (Return (fst sr), with_np_random (snd sr) d).

(** [pd.read_csv(path)]: the empty path names no file. *)
Definition read_csv (path : string) : M DataFrame :=
  fun d =>
    if String.eqb path "" then (Raise FileNotFoundError, d)
    else match files d !! path with
         | Some df => (Return df, d)
         | None => (Raise FileNotFoundError, d)
         end.

(** [df.to_csv(path, index=False)] *)
Definition to_csv (df : DataFrame) (path : string) : M unit :=
  modify (fun d => with_files (<[path := df]> (files d)) d).

(** A cell used as a number: [TypeError] for text. *)
Definition as_number (c : cell) : M Q :=
  match c with
  | CNum q => ret q
  | CStr _ => raise TypeError
  end.

(** [row[name]] *)
Definition row_item (cols : list string) (name : string) (row : list cell) : M cell :=
  match row_get cols name row with
  | Some c => ret c
  | None => raise (KeyError name)
  end.

(** *** Methods of [Dataset] *)

(** [__init__(drawingArea, sigmaScatter, nbrPointsScatter)], in an
    ambient generator state and file system. *)
Definition init (area : Canvas) (sigma nbr : Q) (g : Rng)
           (fs : gmap string DataFrame) : Dataset :=
  {| myData := []; myPointsID := []; sizePoint := 2; classPoint := "blue";
     drawingArea := area; sigmaScatter := sigma; nbrPointsScatter := nbr;
     last_drawn_x := None; last_drawn_y := None; threshold := 5%Z;
     np_random := g; files := fs |}.

Definition setClass (color : string) : M unit :=
  modify (with_classPoint color).

Definition _draw_point (x y pointClass : cell) : M unit :=
  let! self := get in
  let! xn := as_number x in
  let! yn := as_number y in
  let! newpoint :=
    create_oval (xn - sizePoint self) (yn - sizePoint self)
                (xn + sizePoint self) (yn + sizePoint self) pointClass in
  modify (fun d => with_myPointsID (myPointsID d ++ [newpoint]) d) >>
  modify (fun d => with_myData (myData d ++ [(xn, yn, pointClass)]) d).

(** Body of the first loop of [_delete_points]:
    [self.drawingArea.delete(self.myPointsID[i])]. *)
Definition delete_marker_at (i : nat) : M unit :=
  let! self := get in
  match myPointsID self !! i with
  | Some h => delete_item h
  | None => raise IndexError
  end.

Definition _delete_points (event : Event) : M unit :=
  let! self := get in
  let threshold := sigmaScatter self * sigmaScatter self in
  let lst_to_del :=
    indices_where 0 (near (inject_Z (ev_x event)) (inject_Z (ev_y event)) threshold)
                  (myData self) in
  for_each lst_to_del delete_marker_at >>
  modify (fun d => with_myData (drop_indices lst_to_del (myData d)) d) >>
  modify (fun d => with_myPointsID (drop_indices lst_to_del (myPointsID d)) d).

(** Body of the loop of [makeScatter], for one pair [(x, y)]. *)
Definition scatter_one (xy : Q * Q) : M unit :=
  let! self := get in
  modify (fun d => with_myData
                     (myData d ++ [(fst xy, snd xy, CStr (classPoint self))]) d) >>
  let! newpoint :=
    create_oval (fst xy - sizePoint self) (snd xy - sizePoint self)
                (fst xy + sizePoint self) (snd xy + sizePoint self)
                (CStr (classPoint self)) in
  modify (fun d => with_myPointsID (myPointsID d ++ [newpoint]) d).

Definition makeScatter (event : Event) : M unit :=
  let! self := get in
  let ss := py_max (py_min (sigmaScatter self) 50) 0 in
  let ps := py_max (py_min (nbrPointsScatter self) 1000) 0 in
  let! listX := np_normal (inject_Z (ev_x event)) ss (Z.to_nat (py_int ps)) in
  let! listY := np_normal (inject_Z (ev_y event)) ss (Z.to_nat (py_int ps)) in
  for_each (combine listX listY) scatter_one.

Definition pressButton (event : Event) : M unit :=
  modify (with_last_drawn (Some (ev_x event)) (Some (ev_y event))) >>
  let! self := get in
  if String.eqb (classPoint self) "erase" then _delete_points event
  else makeScatter event.

Definition moveButton (event : Event) : M unit :=
  let! self := get in
  match last_drawn_x self with
  | None => ret tt
  | Some lx =>
      match last_drawn_y self with
      | None => raise TypeError
      | Some ly =>
          let move_distance :=
            ((lx - ev_x event) ^ 2 + (ly - ev_y event) ^ 2)%Z in
          if (threshold self ^ 2 <=? move_distance)%Z then pressButton event
          else ret tt
      end
  end.

Definition releaseButton (event : Event) : M unit :=
  moveButton event >>
  modify (with_last_drawn None None).

(** [saveData]: [choice] is the answer of the save dialog ([None] when
    it is cancelled). The dialog opens the chosen file for writing and
    [to_csv] rewrites it; the file's final content is recorded. *)
Definition saveData (choice : option string) : M unit :=
  match choice with
  | None => ret tt
  | Some name =>
      let! self := get in
      let df := frame_of_points (myData self) in
      match replace_column "color" encode_color df with
      | Some df' => to_csv df' name
      | None => raise (KeyError "color")
      end
  end.

(** The function [loadData] applies to each row:
    [self._draw_point(row['x'], row['y'], row['color'])]. *)
Definition load_row (cols : list string) (row : list cell) : M unit :=
  let! x := row_item cols "x" row in
  let! y := row_item cols "y" row in
  let! c := row_item cols "color" row in
  _draw_point x y c.

(** [loadData]: [choice] is the answer of the open dialog, which is the
    empty string when it is cancelled. *)
Definition loadData (choice : option string) : M unit :=
  let loadFrom := default ""%string choice in
  let! df := read_csv loadFrom in
  match replace_column "color" decode_color df with
  | None => raise (KeyError "color")
  | Some df' =>
      for_each (rows df') (load_row (columns df'))
  end.

Definition clearCanvas : M unit :=
  let! self := get in
  for_each (myPointsID self) delete_item >>
  modify (with_myPointsID []) >>
  modify (with_myData []).

(** [list.pop()] on the two lists. *)
Definition pop_myData : M Point :=
  fun d =>
    match List.rev (myData d) with
    | [] => (Raise IndexError, d)
    | p :: r => (Return p, with_myData (List.rev r) d)
    end.

Definition pop_myPointsID : M nat :=
  fun d =>
    match List.rev (myPointsID d) with
    | [] => (Raise IndexError, d)
    | h :: r => (Return h, with_myPointsID (List.rev r) d)
    end.

Definition undo : M unit :=
  pop_myData >>
  let! h := pop_myPointsID in
  delete_item h.

End Program.

(** ** The user interface *)

(** The four class buttons of the main window, and the string each passes
    to [setClass]. *)
Inductive button : Type := Blue | Red | Green | Erase.

Definition button_name (b : button) : string :=
  match b with
  | Blue => "blue"
  | Red => "red"
  | Green => "green"
  | Erase => "erase"
  end.

(** What the user can do: edit the two entries, pick a class, use the
    pointer on the canvas, and click save, load, clear or undo. [AddPoint]
    is a direct call of [_draw_point]. *)
Inductive op : Type :=
| SetSigma (q : Q)
| SetNbrPoints (q : Q)
| SetClass (b : button)
| Press (e : Event)
| Move (e : Event)
| Release (e : Event)
| Save (choice : option string)
| Load (choice : option string)
| Clear
| Undo
| AddPoint (x y c : cell).

(** The two clamped parameters of [makeScatter]. *)
Definition clamp_sigma (sigma : Q) : Q := py_max (py_min sigma 50) 0.
Definition clamp_count (nbr : Q) : nat := Z.to_nat (py_int (py_max (py_min nbr 1000) 0)).

Section Session.

Context {Rng : Type}.
Variable normal : Rng -> Q -> Q -> nat -> list Q * Rng.
Variable color_ok : cell -> bool.

Definition run_op (o : op) : M unit :=
  match o with
  | SetSigma q => modify (with_sigmaScatter q)
  | SetNbrPoints q => modify (with_nbrPointsScatter q)
  | SetClass b => setClass (button_name b)
  | Press e => pressButton normal color_ok e
  | Move e => moveButton normal color_ok e
  | Release e => releaseButton normal color_ok e
  | Save choice => saveData choice
  | Load choice => loadData color_ok choice
  | Clear => clearCanvas
  | Undo => undo
  | AddPoint x y c => _draw_point color_ok x y c
  end.

(** The event loop: an exception of a handler is reported and the loop
    goes on with the state the handler left. *)
Definition run_ops (os : list op) (d : Dataset) : Dataset :=
  foldl (fun st o => exec (run_op o) st) d os.

(** The coordinates [makeScatter] samples with the clamped parameters,
    and the generator state after the two calls of [normal]. *)
Definition sampled (event : Event) (d : Dataset) : list (Q * Q) * Rng :=
  let rx := normal (np_random d) (inject_Z (ev_x event))
                   (clamp_sigma (sigmaScatter d)) (clamp_count (nbrPointsScatter d)) in
  let ry := normal (snd rx) (inject_Z (ev_y event))
                   (clamp_sigma (sigmaScatter d)) (clamp_count (nbrPointsScatter d)) in
  (combine (fst rx) (fst ry), snd ry).


End Session.

(** ** Specification vocabulary *)

(** The marker [create_oval] draws for a point. *)
Definition marker (size : Q) (p : Point) : Oval :=
  {| x0 := point_x p - size; y0 := point_y p - size;
     x1 := point_x p + size; y1 := point_y p + size;
     fill := point_color p |}.

(** The store is aligned: the two lists pair up, each handle is the live
    marker of the point at its index, and no handle occurs twice. *)
Record aligned {Rng : Type} (d : @Dataset Rng) : Prop := {
  al_pairs :
    Forall2 (fun p h => items (drawingArea d) !! h = Some (marker (sizePoint d) p))
            (myData d) (myPointsID d);
  al_nodup : NoDup (myPointsID d);
  al_fresh : forall h, h ∈ myPointsID d -> (h < next_id (drawingArea d))%nat
}.

(** What the handlers rely on besides alignment. *)
Record ui_state {Rng : Type} (d : @Dataset Rng) : Prop := {
  ui_class : exists b, classPoint d = button_name b;
  ui_threshold : threshold d = 5%Z;
  ui_last : last_drawn_x d = None <-> last_drawn_y d = None
}.



(** The state after a point [(x, y, c)] and its marker have been added. *)
Definition stored {Rng : Type} (x y : Q) (c : cell) (d : @Dataset Rng) : Dataset :=
  with_myData (myData d ++ [(x, y, c)])
    (with_myPointsID (myPointsID d ++ [next_id (drawingArea d)])
       (with_drawingArea (snd (canvas_add (marker (sizePoint d) (x, y, c)) (drawingArea d))) d)).

(** The state after a list of sampled coordinates has been added in the
    current class. *)
Definition scattered {Rng : Type} (pts : list (Q * Q)) (d : @Dataset Rng) : Dataset :=
  foldl (fun st xy => stored (fst xy) (snd xy) (CStr (classPoint st)) st) d pts.

(** The state after the points within [threshold] (a squared distance) of
    [(ex, ey)] have been erased with their markers. *)
Definition erased {Rng : Type} (ex ey threshold : Q) (d : @Dataset Rng) : Dataset :=
  let idx := indices_where 0 (near ex ey threshold) (myData d) in
  with_myPointsID (drop_indices idx (myPointsID d))
    (with_myData (drop_indices idx (myData d))
       (with_drawingArea
          (delete_all (omap (fun i => myPointsID d !! i) idx) (drawingArea d)) d)).

(** The invariant of the event loop. *)
Definition inv {Rng : Type} (d : @Dataset Rng) : Prop := aligned d /\ ui_state d.

(** Fields that adding and erasing points never touch. *)
Definition same_controls {Rng : Type} (d d' : @Dataset Rng) : Prop :=
  classPoint d' = classPoint d /\ threshold d' = threshold d /\
  last_drawn_x d' = last_drawn_x d /\ last_drawn_y d' = last_drawn_y d /\
  sigmaScatter d' = sigmaScatter d /\ nbrPointsScatter d' = nbrPointsScatter d /\
  sizePoint d' = sizePoint d /\ files d' = files d.

(** The toolkit knows the three colours of the class buttons. *)
Definition knows_labels (color_ok : cell -> bool) : Prop :=
  color_ok (CStr "red") = true /\ color_ok (CStr "green") = true /\
  color_ok (CStr "blue") = true.


(** A sampler that is only defined for a scale in [[0, 50]] and a size of
    at most 1000, and returns nothing elsewhere. *)
Definition in_range_only {Rng : Type} (normal : Rng -> Q -> Q -> nat -> list Q * Rng)
  : Rng -> Q -> Q -> nat -> list Q * Rng :=
  fun g loc scale size =>
    if Qle_bool 0 scale && Qle_bool scale 50 && (size <=? 1000)%nat
    then normal g loc scale size
    else ([], g).


(** The state with the two entries of the parameter frame set. *)
Definition retune {Rng : Type} (sigma nbr : Q) (d : @Dataset Rng) : Dataset :=
  with_sigmaScatter sigma (with_nbrPointsScatter nbr d).

(** The sampler returns as many samples as it is asked for. *)
Definition exact_size {Rng : Type} (normal : Rng -> Q -> Q -> nat -> list Q * Rng) : Prop :=
  forall g loc scale size, length (fst (normal g loc scale size)) = size.

(** A sampled pair as the point [makeScatter] stores for it. *)
Definition labelled (color : string) (xy : Q * Q) : Point :=
  (fst xy, snd xy, CStr color).

(** The squared distance [moveButton] computes from a recorded position. *)
Definition moved_sq (lx ly : Z) (event : Event) : Z :=
  ((lx - ev_x event) ^ 2 + (ly - ev_y event) ^ 2)%Z.

(** What the canvas and the store share with the canvas the object was
    built on: the counter has not gone back, every handle was handed out
    after the object was built, and the items that were there before are
    as they were. *)
Definition keeps_foreign {Rng : Type} (area : Canvas) (d : @Dataset Rng) : Prop :=
  (next_id area <= next_id (drawingArea d))%nat /\
  (forall h, h ∈ myPointsID d -> (next_id area <= h)%nat) /\
  (forall h, (h < next_id area)%nat ->
             items (drawingArea d) !! h = items area !! h).

(** ** Concrete collaborators for examples *)

(** A generator that replays a fixed sequence of deviates: the state is
    the number of deviates drawn so far. *)
Definition deviate (k : nat) : Q := (Z.of_nat (k mod 7) - 3) # 2.

Definition replay_normal (g : nat) (loc scale : Q) (size : nat) : list Q * nat :=
  ((fun k => loc + scale * deviate (g + k)) <$> seq 0 size, (g + size)%nat).

(** A colour table that knows a few names. *)
Definition named_color (c : cell) : bool :=
  match c with
  | CStr s => bool_decide (s ∈ ["red"; "green"; "blue"; "yellow"]%string)
  | CNum _ => false
  end.

(** The canvas of the main window before any point is drawn. *)
Definition blank_canvas : Canvas := {| next_id := 10; items := ∅ |}.

(** A fresh object as the main block builds it (sigma 10, five points). *)
Definition fresh_store : @Dataset nat := init blank_canvas 10 5 0%nat ∅.

Definition mk_event (x y : Z) : Event := {| ev_x := x; ev_y := y |}.

(** The store with points at (0,0), (3,0) and (10,10), and a given value
    in the sigma entry. *)
Definition three_points (sigma : Q) : @Dataset nat :=
  run_ops replay_normal named_color
    [SetSigma sigma;
     AddPoint (CNum 0) (CNum 0) (CStr "red"); AddPoint (CNum 3) (CNum 0) (CStr "red");
     AddPoint (CNum 10) (CNum 10) (CStr "blue")]
    fresh_store.

(** The object after a first press at the origin: five points, and the
    press position recorded. *)
Definition pressed_at_origin : @Dataset nat :=
  run_ops replay_normal named_color [Press (mk_event 0 0)] fresh_store.


(** A canvas that already holds an item of the window (id 3). *)
Definition framed_canvas : Canvas :=
  {| next_id := 10;
     items := {[ 3%nat := {| x0 := 1; y0 := 1; x1 := 300; y1 := 30;
                             fill := CStr "grey" |} ]} |}.

(** A session: a cluster, two points added directly, an erase stroke, an
    undo on whatever is left, a cancelled load and a clear. *)
Definition session : list op :=
  [Press (mk_event 100 100); Move (mk_event 104 100); Release (mk_event 120 100);
   AddPoint (CNum 1) (CNum 1) (CStr "red"); AddPoint (CNum 2) (CNum 2) (CStr "blue");
   SetClass Erase; SetSigma 3; Press (mk_event 100 100); Release (mk_event 100 100);
   Undo; Load None; SetClass Green; Press (mk_event 7 7); Clear; Undo].

(** * Properties *)

(** ** Lists filtered by index *)

Section IndexLists.

Context {A : Type}.

Lemma drop_indices_from_cons (k : nat) (idx : list nat) (a : A) (l : list A) :
  drop_indices_from k idx (a :: l) =
  if bool_decide (k ∈ idx) then drop_indices_from (S k) idx l
  else a :: drop_indices_from (S k) idx l.
Proof.
  unfold drop_indices_from, enumerate. simpl.
  destruct (bool_decide (k ∈ idx)); reflexivity.
Qed.

Lemma indices_where_cons (k : nat) (f : A -> bool) (a : A) (l : list A) :
  indices_where k f (a :: l) =
  if f a then k :: indices_where (S k) f l else indices_where (S k) f l.
Proof.
  unfold indices_where, enumerate. simpl. destruct (f a); reflexivity.
Qed.

(** The collected indices are the positions of the elements that
    satisfy the test. *)
Lemma elem_of_indices_where (f : A -> bool) (l : list A) (k i : nat) :
  i ∈ indices_where k f l <->
  exists a, (k <= i)%nat /\ l !! (i - k)%nat = Some a /\ f a = true.
Proof.
  revert k. induction l as [|b l IH]; intros k.
  - split; [intros H; inversion H | intros (a & _ & H & _); discriminate].
  - rewrite indices_where_cons. split.
    + intros H.
      assert (Hcases : (i = k /\ f b = true) \/ i ∈ indices_where (S k) f l).
      { destruct (f b) eqn:Hb; [|by right].
        apply elem_of_cons in H as [->|H]; [by left | by right]. }
      destruct Hcases as [[-> Hb]|Hin].
      * exists b. replace (k - k)%nat with 0%nat by lia. auto.
      * apply IH in Hin as (a & Hle & Hl & Ha). exists a.
        replace (i - k)%nat with (S (i - S k)) by lia. split; [lia|]. auto.
    + intros (a & Hle & Hl & Ha).
      destruct (decide (i = k)) as [->|Hne].
      * replace (k - k)%nat with 0%nat in Hl by lia. simpl in Hl.
        injection Hl as ->. rewrite Ha. apply elem_of_cons. by left.
      * assert (Hin : i ∈ indices_where (S k) f l).
        { apply IH. exists a. split; [lia|]. split; [|done].
          replace (i - k)%nat with (S (i - S k)) in Hl by lia. exact Hl. }
        destruct (f b); [apply elem_of_cons; by right | done].
Qed.

(** Dropping the collected indices is filtering by the test. *)
Lemma drop_indices_from_filter (f : A -> bool) (idx : list nat) (l : list A) (k : nat) :
  (forall i a, l !! i = Some a -> ((k + i)%nat ∈ idx <-> f a = true)) ->
  drop_indices_from k idx l = List.filter (fun a => negb (f a)) l.
Proof.
  revert k. induction l as [|b l IH]; intros k H; [reflexivity|].
  rewrite drop_indices_from_cons. simpl.
  assert (Hb : (k ∈ idx) <-> f b = true).
  { specialize (H 0%nat b eq_refl). by rewrite Nat.add_0_r in H. }
  assert (Hl : drop_indices_from (S k) idx l = List.filter (fun a => negb (f a)) l).
  { apply IH. intros i a Hi. specialize (H (S i) a Hi).
    by replace (S k + i)%nat with (k + S i)%nat by lia. }
  rewrite Hl. destruct (f b) eqn:Hfb; simpl.
  - rewrite bool_decide_eq_true_2; [done|]. by apply Hb.
  - rewrite bool_decide_eq_false_2; [done|]. intros Hin. apply Hb in Hin. discriminate.
Qed.

Lemma drop_indices_from_sublist (idx : list nat) (l : list A) (k : nat) :
  sublist (drop_indices_from k idx l) l.
Proof.
  revert k. induction l as [|b l IH]; intros k; [constructor|].
  rewrite drop_indices_from_cons.
  destruct (bool_decide (k ∈ idx)); [apply sublist_cons | apply sublist_skip]; apply IH.
Qed.

End IndexLists.


Lemma Forall2_drop_indices_from {A B : Type} (R R' : A -> B -> Prop)
      (idx : list nat) (l : list A) (m : list B) (k : nat) :
  Forall2 R l m ->
  (forall i a b, l !! i = Some a -> m !! i = Some b ->
                 (k + i)%nat ∉ idx -> R a b -> R' a b) ->
  Forall2 R' (drop_indices_from k idx l) (drop_indices_from k idx m).
Proof.
  intros HF. revert k. induction HF as [|a b l m Hab HF IH]; intros k H.
  - constructor.
  - rewrite !drop_indices_from_cons.
    assert (Htail : Forall2 R' (drop_indices_from (S k) idx l)
                               (drop_indices_from (S k) idx m)).
    { apply IH. intros i a' b' Ha' Hb' Hni. apply (H (S i)); [done|done|].
      by replace (k + S i)%nat with (S k + i)%nat by lia. }
    destruct (bool_decide (k ∈ idx)) eqn:Hk; [done|].
    constructor; [|done].
    apply (H 0%nat); [done|done| |done].
    rewrite Nat.add_0_r. by apply bool_decide_eq_false in Hk.
Qed.

(** ** The canvas *)

Lemma delete_all_next_id (hs : list nat) (c : Canvas) :
  next_id (delete_all hs c) = next_id c.
Proof.
  revert c. induction hs as [|h hs IH]; intros c; [reflexivity|].
  unfold delete_all in *. simpl. by rewrite IH.
Qed.

Lemma delete_all_lookup (hs : list nat) (c : Canvas) (h : nat) :
  items (delete_all hs c) !! h = if decide (h ∈ hs) then None else items c !! h.
Proof.
  revert c. induction hs as [|h' hs IH]; intros c.
  - simpl. destruct (decide (h ∈ [])) as [Hin|_]; [inversion Hin|done].
  - unfold delete_all in *. simpl. rewrite IH. simpl.
    destruct (decide (h ∈ hs)) as [Hin|Hnin].
    + rewrite decide_True; [done|]. apply elem_of_cons. by right.
    + destruct (decide (h = h')) as [->|Hne].
      * rewrite lookup_delete_eq. rewrite decide_True; [done|]. apply elem_of_cons. by left.
      * rewrite lookup_delete_ne by done. rewrite decide_False; [done|].
        intros [?|?]%elem_of_cons; done.
Qed.

(** ** The methods as state transformers *)

Section Methods.

Context {Rng : Type}.
Variable normal : Rng -> Q -> Q -> nat -> list Q * Rng.
Variable color_ok : cell -> bool.

Implicit Types (d : @Dataset Rng) (event : Event).

(** A loop whose body returns on every state that satisfies [I], and
    keeps [I], returns. *)
Lemma for_each_steps {A : Type} (I : @Dataset Rng -> Prop) (l : list A)
      (body : A -> M unit) (step : A -> @Dataset Rng -> @Dataset Rng) :
  (forall a d, a ∈ l -> I d -> body a d = (Return tt, step a d) /\ I (step a d)) ->
  forall d, I d ->
    for_each l body d = (Return tt, foldl (fun st a => step a st) d l) /\
    I (foldl (fun st a => step a st) d l).
Proof.
  induction l as [|a l IH]; intros Hbody d HI; [done|].
  destruct (Hbody a d) as [Ha HIa]; [apply elem_of_cons; by left|done|].
  destruct (IH (fun a' d' Hin => Hbody a' d' (proj2 (elem_of_cons _ _ _) (or_intror Hin)))
               (step a d) HIa) as [Hl HIl].
  split; [|exact HIl].
  simpl. unfold bind. rewrite Ha. exact Hl.
Qed.

(** A loop keeps what every call of its body keeps, whatever the
    outcome. *)
Lemma for_each_keeps {A : Type} (I : @Dataset Rng -> Prop) (l : list A)
      (body : A -> M unit) :
  (forall a d, I d -> I (exec (body a) d)) ->
  forall d, I d -> I (exec (for_each l body) d).
Proof.
  intros Hbody. induction l as [|a l IH]; intros d HI; [done|].
  unfold exec in *. simpl. unfold bind.
  specialize (Hbody a d HI). destruct (body a d) as [[[]|e] d']; simpl in *.
  - by apply IH.
  - done.
Qed.

(** *** [_draw_point] *)

Lemma draw_point_ok (x y : Q) (c : cell) d :
  color_ok c = true ->
  _draw_point color_ok (CNum x) (CNum y) c d = (Return tt, stored x y c d).
Proof.
  intros Hc. unfold _draw_point, bind, get, as_number, ret, create_oval, modify.
  simpl. rewrite Hc. reflexivity.
Qed.

(** A call either adds the point or raises and changes nothing. *)
Lemma draw_point_cases (x y c : cell) d :
  (exists xn yn, x = CNum xn /\ y = CNum yn /\ color_ok c = true /\
                 _draw_point color_ok x y c d = (Return tt, stored xn yn c d)) \/
  (exists e, _draw_point color_ok x y c d = (Raise e, d)).
Proof.
  destruct x as [xn|s]; [|right; by exists TypeError].
  destruct y as [yn|s]; [|right; by exists TypeError].
  destruct (color_ok c) eqn:Hc.
  - left. exists xn, yn. by rewrite draw_point_ok.
  - right. exists TclError.
    unfold _draw_point, bind, get, as_number, ret, create_oval. simpl.
    by rewrite Hc.
Qed.

(** *** [makeScatter] *)

Lemma scatter_body_ok (xy : Q * Q) d :
  color_ok (CStr (classPoint d)) = true ->
  scatter_one color_ok xy d =
  (Return tt, stored (fst xy) (snd xy) (CStr (classPoint d)) d).
Proof.
  intros Hc. unfold scatter_one, bind, get, modify, create_oval. simpl. rewrite Hc. reflexivity.
Qed.

Lemma makeScatter_ok event d :
  color_ok (CStr (classPoint d)) = true ->
  makeScatter normal color_ok event d =
  (Return tt, scattered (fst (sampled normal event d))
                        (with_np_random (snd (sampled normal event d)) d)).
Proof.
  intros Hc. unfold makeScatter, sampled, clamp_sigma, clamp_count.
  unfold bind at 1. unfold get at 1. cbv beta iota.
  unfold bind at 1. unfold np_normal at 1. cbv beta iota zeta.
  unfold bind at 1. unfold np_normal at 1. cbv beta iota zeta.
  simpl np_random.
  set (rx := normal _ _ _ _). set (ry := normal _ _ _ _).
  change (with_np_random (snd ry) (with_np_random (snd rx) d))
    with (with_np_random (snd ry) d).
  edestruct (for_each_steps (fun st => classPoint st = classPoint d)
               (combine (fst rx) (fst ry)) (scatter_one color_ok)
               (fun xy st => stored (fst xy) (snd xy) (CStr (classPoint st)) st))
    as [Hrun _]; [| |exact Hrun].
  - intros xy st _ Hst. split; [|done].
    apply scatter_body_ok. by rewrite Hst.
  - reflexivity.
Qed.

(** *** [_delete_points] and [clearCanvas] *)

Lemma delete_marker_at_found (i h : nat) d :
  myPointsID d !! i = Some h ->
  delete_marker_at i d =
  (Return tt, with_drawingArea (canvas_delete h (drawingArea d)) d).
Proof. intros H. unfold delete_marker_at, bind, get. by rewrite H. Qed.

Lemma delete_marker_loop (idx : list nat) d :
  (forall i, i ∈ idx -> is_Some (myPointsID d !! i)) ->
  for_each idx delete_marker_at d =
  (Return tt,
   with_drawingArea (delete_all (omap (fun i => myPointsID d !! i) idx) (drawingArea d)) d).
Proof.
  revert d. induction idx as [|i idx IH]; intros d Hin.
  - destruct d; reflexivity.
  - destruct (Hin i) as [h Hh]; [apply elem_of_cons; by left|].
    simpl. rewrite Hh. unfold bind.
    rewrite (delete_marker_at_found i h d Hh).
    rewrite IH.
    + reflexivity.
    + intros j Hj. simpl. apply Hin. apply elem_of_cons. by right.
Qed.

Lemma delete_points_ok event d :
  (length (myData d) <= length (myPointsID d))%nat ->
  _delete_points event d =
  (Return tt,
   erased (inject_Z (ev_x event)) (inject_Z (ev_y event))
          (sigmaScatter d * sigmaScatter d) d).
Proof.
  intros Hlen. unfold _delete_points, erased.
  unfold bind at 1. unfold get at 1. cbv beta iota zeta.
  unfold bind at 1. unfold bind at 1.
  rewrite delete_marker_loop.
  - reflexivity.
  - intros i (p & _ & Hp & _)%elem_of_indices_where.
    apply lookup_lt_is_Some. apply lookup_lt_Some in Hp. lia.
Qed.

Lemma delete_item_loop (hs : list nat) d :
  for_each hs delete_item d =
  (Return tt, with_drawingArea (delete_all hs (drawingArea d)) d).
Proof.
  revert d. induction hs as [|h hs IH]; intros d.
  - destruct d; reflexivity.
  - simpl. unfold bind at 1. unfold delete_item at 1, modify. rewrite IH. reflexivity.
Qed.

Lemma clearCanvas_ok d :
  clearCanvas d =
  (Return tt,
   with_myData [] (with_myPointsID []
     (with_drawingArea (delete_all (myPointsID d) (drawingArea d)) d))).
Proof.
  unfold clearCanvas. unfold bind at 1. unfold get at 1. cbv beta iota.
  unfold bind at 1. rewrite delete_item_loop. reflexivity.
Qed.

(** *** [undo] *)

Lemma undo_ok (ps : list Point) (p : Point) (hs : list nat) (h : nat) d :
  myData d = ps ++ [p] -> myPointsID d = hs ++ [h] ->
  undo d =
  (Return tt,
   with_drawingArea (canvas_delete h (drawingArea d))
     (with_myPointsID hs (with_myData ps d))).
Proof.
  intros Hp Hh. unfold undo, bind, pop_myData, pop_myPointsID, delete_item, modify.
  rewrite Hp, rev_unit. simpl. rewrite Hh, rev_unit, !rev_involutive. reflexivity.
Qed.

Lemma undo_empty d :
  myData d = [] -> undo d = (Raise IndexError, d).
Proof.
  intros Hp. unfold undo, bind, pop_myData. rewrite Hp. reflexivity.
Qed.

(** *** The pointer handlers *)

Lemma pressButton_draw event d :
  String.eqb (classPoint d) "erase" = false ->
  pressButton normal color_ok event d =
  makeScatter normal color_ok event
              (with_last_drawn (Some (ev_x event)) (Some (ev_y event)) d).
Proof.
  intros Hc. unfold pressButton, bind, modify, get. simpl. by rewrite Hc.
Qed.

Lemma pressButton_erase event d :
  String.eqb (classPoint d) "erase" = true ->
  pressButton normal color_ok event d =
  _delete_points event (with_last_drawn (Some (ev_x event)) (Some (ev_y event)) d).
Proof.
  intros Hc. unfold pressButton, bind, modify, get. simpl. by rewrite Hc.
Qed.

(** The squared distance [moveButton] compares with the threshold. *)
Lemma moveButton_dragging event d (lx ly : Z) :
  last_drawn_x d = Some lx -> last_drawn_y d = Some ly ->
  moveButton normal color_ok event d =
  if (threshold d ^ 2 <=? (lx - ev_x event) ^ 2 + (ly - ev_y event) ^ 2)%Z
  then pressButton normal color_ok event d
  else (Return tt, d).
Proof.
  intros Hx Hy. unfold moveButton, bind, get. rewrite Hx, Hy.
  destruct (_ <=? _)%Z; reflexivity.
Qed.

Lemma moveButton_idle event d :
  last_drawn_x d = None -> moveButton normal color_ok event d = (Return tt, d).
Proof. intros Hx. unfold moveButton, bind, get. by rewrite Hx. Qed.

(** *** Alignment is kept by every change of the store *)

Lemma Forall2_elem_impl {A B : Type} (R R' : A -> B -> Prop) (l : list A) (m : list B) :
  Forall2 R l m -> (forall a b, b ∈ m -> R a b -> R' a b) -> Forall2 R' l m.
Proof.
  induction 1 as [|a b l m Hab HF IH]; intros H; constructor.
  - apply H; [apply elem_of_cons; by left|done].
  - apply IH. intros a' b' Hin. apply H. apply elem_of_cons. by right.
Qed.

Lemma aligned_stored (x y : Q) (c : cell) d :
  aligned d -> aligned (stored x y c d).
Proof.
  intros [Hp Hn Hf]. split; simpl.
  - apply Forall2_app.
    + eapply Forall2_elem_impl; [exact Hp|]. intros p h Hin Hh.
      rewrite lookup_insert_ne; [done|]. apply Hf in Hin. lia.
    + constructor; [|constructor]. by rewrite lookup_insert_eq.
  - apply NoDup_app. split; [done|]. split; [|apply NoDup_singleton].
    intros h Hin ->%list_elem_of_singleton. apply Hf in Hin. lia.
  - intros h [Hin| ->%list_elem_of_singleton]%elem_of_app; [|lia].
    apply Hf in Hin. lia.
Qed.

Lemma aligned_scattered (pts : list (Q * Q)) d :
  aligned d -> aligned (scattered pts d).
Proof.
  revert d. induction pts as [|xy pts IH]; intros d Hd; [done|].
  unfold scattered in *. simpl. apply IH. by apply aligned_stored.
Qed.

Lemma aligned_erased (ex ey t : Q) d :
  aligned d -> aligned (erased ex ey t d).
Proof.
  intros [Hp Hn Hf]. unfold erased. set (idx := indices_where _ _ _).
  split; simpl.
  - unfold drop_indices. eapply Forall2_drop_indices_from; [exact Hp|].
    intros i p h Hi Hh Hni Hm. simpl in Hni.
    rewrite delete_all_lookup. rewrite decide_False; [done|].
    intros (j & Hj & Hjh)%list_elem_of_omap.
    assert (i = j) by (eapply NoDup_lookup; eauto). by subst.
  - eapply sublist_NoDup; [exact Hn|]. apply drop_indices_from_sublist.
  - intros h Hin. rewrite delete_all_next_id. apply Hf.
    eapply elem_of_sublist; [exact Hin|]. apply drop_indices_from_sublist.
Qed.

Lemma aligned_cleared d (c : Canvas) :
  aligned (with_myData [] (with_myPointsID [] (with_drawingArea c d))).
Proof.
  split; simpl; [constructor|constructor|]. intros h Hin. inversion Hin.
Qed.

Lemma aligned_undone (ps : list Point) (p : Point) (hs : list nat) (h : nat) d :
  myData d = ps ++ [p] -> myPointsID d = hs ++ [h] -> aligned d ->
  aligned (with_drawingArea (canvas_delete h (drawingArea d))
             (with_myPointsID hs (with_myData ps d))).
Proof.
  intros Hps Hhs [Hp Hn Hf]. rewrite Hps, Hhs in Hp. rewrite Hhs in Hn, Hf.
  apply NoDup_app in Hn as (Hn & Hdis & _).
  apply Forall2_app_inv_l in Hp as (k1 & k2 & H1 & H2 & Hk).
  assert (Hlen : length k2 = 1%nat) by (apply Forall2_length in H2; simpl in H2; lia).
  destruct k2 as [|h' [|? ?]]; try discriminate.
  apply app_inj_tail in Hk as [<- <-].
  split; simpl.
  - eapply Forall2_elem_impl; [exact H1|]. intros q g Hin Hg.
    rewrite lookup_delete_ne; [done|]. intros <-.
    apply (Hdis h); [done|]. by apply list_elem_of_singleton.
  - done.
  - intros g Hin. apply Hf. apply elem_of_app. by left.
Qed.

(** Alignment only reads the two lists, the canvas and the marker size. *)
Lemma aligned_frame d d' :
  myData d' = myData d -> myPointsID d' = myPointsID d ->
  drawingArea d' = drawingArea d -> sizePoint d' = sizePoint d ->
  aligned d -> aligned d'.
Proof.
  intros H1 H2 H3 H4 [Hp Hn Hf]. split; rewrite ?H1, ?H2, ?H3, ?H4; done.
Qed.

(** *** What the handlers rely on is kept as well *)

Lemma same_controls_refl d : same_controls d d.
Proof. repeat split. Qed.

Lemma same_controls_trans d1 d2 d3 :
  same_controls d1 d2 -> same_controls d2 d3 -> same_controls d1 d3.
Proof.
  intros (?&?&?&?&?&?&?&?) (?&?&?&?&?&?&?&?). repeat split; congruence.
Qed.

Lemma same_controls_stored (x y : Q) (c : cell) d : same_controls d (stored x y c d).
Proof. repeat split. Qed.

Lemma same_controls_scattered (pts : list (Q * Q)) d : same_controls d (scattered pts d).
Proof.
  revert d. induction pts as [|xy pts IH]; intros d; [apply same_controls_refl|].
  unfold scattered in *. simpl.
  eapply same_controls_trans; [apply same_controls_stored|apply IH].
Qed.

Lemma same_controls_erased (ex ey t : Q) d : same_controls d (erased ex ey t d).
Proof. repeat split. Qed.

Lemma ui_state_frame d d' : same_controls d d' -> ui_state d -> ui_state d'.
Proof.
  intros (Hc & Ht & Hx & Hy & _) [Hb Hth Hl].
  split; rewrite ?Hc, ?Ht, ?Hx, ?Hy; done.
Qed.

Lemma exec_bind {A B : Type} (c : M A) (k : A -> M B) d :
  exec (bind c k) d =
  match c d with
  | (Return a, d') => exec (k a) d'
  | (Raise _, d') => d'
  end.
Proof. unfold exec, bind. destruct (c d) as [[a|e] d']; reflexivity. Qed.

Lemma saveData_ok (name : string) d :
  saveData (Some name) d =
  (Return tt,
   with_files (<[name := {| columns := ["x"; "y"; "color"]%string;
                            rows := (fun p => [CNum (point_x p); CNum (point_y p);
                                               encode_color (point_color p)])
                                      <$> myData d |}]> (files d)) d).
Proof.
  unfold saveData, bind, get, to_csv, modify, replace_column. simpl.
  do 4 f_equal. rewrite <- list_fmap_compose. reflexivity.
Qed.

(** *** Every handler keeps the store aligned *)

Section Invariant.

Hypothesis colors_known : knows_labels color_ok.

Lemma class_color_ok d :
  ui_state d -> String.eqb (classPoint d) "erase" = false ->
  color_ok (CStr (classPoint d)) = true.
Proof.
  intros [[b Hb] _ _] He. rewrite Hb in *.
  destruct colors_known as (Hr & Hg & Hbl). by destruct b.
Qed.

Lemma inv_press event d : inv d -> inv (exec (pressButton normal color_ok event) d).
Proof.
  intros [Ha Hu]. unfold exec.
  set (d1 := with_last_drawn (Some (ev_x event)) (Some (ev_y event)) d).
  assert (Ha1 : aligned d1) by (eapply aligned_frame; [..|exact Ha]; reflexivity).
  assert (Hu1 : ui_state d1).
  { destruct Hu as [Hb Ht Hl]. split; simpl; [done|done|]. split; discriminate. }
  destruct (String.eqb (classPoint d) "erase") eqn:He.
  - rewrite pressButton_erase by done. fold d1.
    rewrite delete_points_ok.
    + simpl. split; [by apply aligned_erased|].
      eapply ui_state_frame; [apply same_controls_erased|done].
    + destruct Ha1 as [Hp _ _]. apply Forall2_length in Hp. lia.
  - rewrite pressButton_draw by done. fold d1.
    rewrite makeScatter_ok by (by apply class_color_ok).
    simpl. split.
    + apply aligned_scattered. eapply aligned_frame; [..|exact Ha1]; reflexivity.
    + eapply ui_state_frame; [apply same_controls_scattered|].
      eapply ui_state_frame; [|exact Hu1]. repeat split.
Qed.

Lemma inv_move event d : inv d -> inv (exec (moveButton normal color_ok event) d).
Proof.
  intros Hi. destruct (last_drawn_x d) as [lx|] eqn:Hx.
  - destruct (last_drawn_y d) as [ly|] eqn:Hy.
    + unfold exec. rewrite (moveButton_dragging event d lx ly Hx Hy).
      destruct (_ <=? _)%Z; [by apply inv_press|done].
    + destruct Hi as [_ [_ _ Hl]]. apply Hl in Hy. congruence.
  - unfold exec. by rewrite moveButton_idle.
Qed.

Lemma inv_release event d : inv d -> inv (exec (releaseButton normal color_ok event) d).
Proof.
  intros Hi. unfold releaseButton. rewrite exec_bind.
  pose proof (inv_move event d Hi) as Hm. unfold exec in Hm.
  destruct (moveButton normal color_ok event d) as [[[]|e] d']; simpl in Hm; [|done].
  destruct Hm as [Ha [Hb Ht Hl]]. unfold exec, modify. simpl. split.
  - eapply aligned_frame; [..|exact Ha]; reflexivity.
  - split; simpl; done.
Qed.

Lemma inv_draw_point (x y c : cell) d :
  inv d -> inv (exec (_draw_point color_ok x y c) d).
Proof.
  intros [Ha Hu]. unfold exec.
  destruct (draw_point_cases x y c d) as [(xn & yn & _ & _ & _ & ->)|[e ->]]; [|done].
  simpl. split; [by apply aligned_stored|].
  eapply ui_state_frame; [apply same_controls_stored|done].
Qed.

Lemma inv_load_row (cols : list string) (row : list cell) d :
  inv d -> inv (exec (load_row color_ok cols row) d).
Proof.
  intros Hi. unfold load_row, row_item.
  destruct (row_get cols "x" row) as [x|]; [|done].
  destruct (row_get cols "y" row) as [y|]; [|done].
  destruct (row_get cols "color" row) as [c|]; [|done].
  by apply inv_draw_point.
Qed.

Lemma inv_load (choice : option string) d :
  inv d -> inv (exec (loadData color_ok choice) d).
Proof.
  intros Hi. unfold loadData. rewrite exec_bind. unfold read_csv.
  destruct (String.eqb _ ""); [done|].
  destruct (files d !! _) as [df|]; [|done].
  destruct (replace_column "color" decode_color df) as [df'|]; [|done].
  apply for_each_keeps; [|done]. intros row st. apply inv_load_row.
Qed.

Lemma inv_undo d : inv d -> inv (exec undo d).
Proof.
  intros [Ha Hu]. unfold exec.
  destruct (myData d) as [|p0 ps0] eqn:Hp using rev_ind.
  - by rewrite undo_empty.
  - clear IHps0. pose proof Ha as [HF _ _]. rewrite Hp in HF.
    apply Forall2_app_inv_l in HF as (k1 & k2 & _ & H2 & Hk).
    assert (Hlen : length k2 = 1%nat) by (apply Forall2_length in H2; simpl in H2; lia).
    destruct k2 as [|h [|? ?]]; try discriminate.
    rewrite (undo_ok ps0 p0 k1 h d Hp Hk). simpl. split.
    + by apply (aligned_undone ps0 p0 k1 h).
    + eapply ui_state_frame; [|exact Hu]. repeat split.
Qed.

(** One step of the event loop keeps the invariant. *)
Lemma inv_step (o : op) d : inv d -> inv (exec (run_op normal color_ok o) d).
Proof.
  intros Hi. destruct o; simpl.
  - destruct Hi as [Ha [Hb Ht Hl]]. split; [|by split].
    eapply aligned_frame; [..|exact Ha]; reflexivity.
  - destruct Hi as [Ha [Hb Ht Hl]]. split; [|by split].
    eapply aligned_frame; [..|exact Ha]; reflexivity.
  - destruct Hi as [Ha [Hb Ht Hl]]. split; [|split; simpl; eauto].
    eapply aligned_frame; [..|exact Ha]; reflexivity.
  - by apply inv_press.
  - by apply inv_move.
  - by apply inv_release.
  - destruct choice as [name|]; [|done].
    unfold exec. rewrite saveData_ok. simpl.
    destruct Hi as [Ha [Hb Ht Hl]]. split; [|by split].
    eapply aligned_frame; [..|exact Ha]; reflexivity.
  - by apply inv_load.
  - unfold exec. rewrite clearCanvas_ok. simpl. split; [apply aligned_cleared|].
    destruct Hi as [_ [Hb Ht Hl]]. by split.
  - by apply inv_undo.
  - by apply inv_draw_point.
Qed.

Lemma inv_init (area : Canvas) (sigma nbr : Q) (g : Rng) (fs : gmap string DataFrame) :
  inv (init area sigma nbr g fs).
Proof.
  split; split; simpl; try done.
  - constructor.
  - intros h Hin. inversion Hin.
  - by exists Blue.
Qed.

Lemma inv_run_ops (os : list op) d : inv d -> inv (run_ops normal color_ok os d).
Proof.
  revert d. induction os as [|o os IH]; intros d Hi; [done|].
  unfold run_ops in *. simpl. apply IH. by apply inv_step.
Qed.


End Invariant.

(** *** [loadData] *)








Lemma loadData_cancelled d :
  loadData color_ok None d = (Raise FileNotFoundError, d).
Proof. reflexivity. Qed.

(** *** The pointer position after a press *)

Lemma scatter_one_last_drawn (xy : Q * Q) d :
  last_drawn_x (exec (scatter_one color_ok xy) d) = last_drawn_x d /\
  last_drawn_y (exec (scatter_one color_ok xy) d) = last_drawn_y d.
Proof.
  unfold exec, scatter_one, bind, get, modify, create_oval. simpl.
  destruct (color_ok _); done.
Qed.

Lemma delete_marker_at_last_drawn (i : nat) d :
  last_drawn_x (exec (delete_marker_at i) d) = last_drawn_x d /\
  last_drawn_y (exec (delete_marker_at i) d) = last_drawn_y d.
Proof.
  unfold exec, delete_marker_at, bind, get. destruct (myPointsID d !! i); done.
Qed.

Lemma delete_points_last_drawn event d :
  last_drawn_x (exec (_delete_points event) d) = last_drawn_x d /\
  last_drawn_y (exec (_delete_points event) d) = last_drawn_y d.
Proof.
  unfold _delete_points. rewrite exec_bind. unfold get. rewrite exec_bind.
  set (idx := indices_where _ _ _).
  assert (Hk : last_drawn_x (exec (for_each idx delete_marker_at) d) = last_drawn_x d /\
               last_drawn_y (exec (for_each idx delete_marker_at) d) = last_drawn_y d).
  { apply (for_each_keeps
             (fun st => last_drawn_x st = last_drawn_x d /\ last_drawn_y st = last_drawn_y d));
      [|done].
    intros i st [Hx Hy]. destruct (delete_marker_at_last_drawn i st) as [-> ->]. done. }
  unfold exec in Hk.
  destruct (for_each idx delete_marker_at d) as [[[]|e] d2]; simpl in Hk; [|exact Hk].
  unfold exec, bind, modify. simpl. exact Hk.
Qed.

Lemma makeScatter_last_drawn event d :
  last_drawn_x (exec (makeScatter normal color_ok event) d) = last_drawn_x d /\
  last_drawn_y (exec (makeScatter normal color_ok event) d) = last_drawn_y d.
Proof.
  unfold makeScatter. rewrite exec_bind. unfold get.
  rewrite exec_bind. unfold np_normal at 1. rewrite exec_bind. unfold np_normal at 1.
  apply (for_each_keeps
           (fun st => last_drawn_x st = last_drawn_x d /\ last_drawn_y st = last_drawn_y d));
    [|done].
  intros xy st [Hx Hy]. destruct (scatter_one_last_drawn xy st) as [-> ->]. done.
Qed.

(** A press records its position, whatever happens afterwards. *)
Lemma press_records_position event d :
  last_drawn_x (exec (pressButton normal color_ok event) d) = Some (ev_x event) /\
  last_drawn_y (exec (pressButton normal color_ok event) d) = Some (ev_y event).
Proof.
  unfold pressButton. rewrite exec_bind. unfold modify.
  rewrite exec_bind. unfold get.
  set (d1 := with_last_drawn _ _ d).
  destruct (String.eqb (classPoint d1) "erase").
  - destruct (delete_points_last_drawn event d1) as [-> ->]. done.
  - destruct (makeScatter_last_drawn event d1) as [-> ->]. done.
Qed.



(** *** Clamping *)

Lemma Qlt_bool_false (a b : Q) : Qlt_bool a b = false -> b <= a.
Proof.
  unfold Qlt_bool. intros H. apply negb_false_iff in H. by apply Qle_bool_iff.
Qed.

Lemma py_min_le_r (a b : Q) : py_min a b <= b.
Proof.
  unfold py_min. destruct (Qlt_bool b a) eqn:H; [apply Qle_refl|].
  by apply Qlt_bool_false.
Qed.

Lemma py_max_ge_r (a b : Q) : b <= py_max a b.
Proof.
  unfold py_max. destruct (Qlt_bool a b) eqn:H; [apply Qle_refl|].
  by apply Qlt_bool_false.
Qed.

Lemma py_max_le (a b c : Q) : a <= c -> b <= c -> py_max a b <= c.
Proof. intros Ha Hb. unfold py_max. by destruct (Qlt_bool a b). Qed.

Lemma clamp_sigma_range (sigma : Q) : 0 <= clamp_sigma sigma /\ clamp_sigma sigma <= 50.
Proof.
  unfold clamp_sigma. split; [apply py_max_ge_r|].
  apply py_max_le; [apply py_min_le_r|done].
Qed.

Lemma py_int_range (q : Q) (n : Z) :
  0 <= q -> q <= inject_Z n -> (0 <= py_int q <= n)%Z.
Proof.
  destruct q as [a b]. unfold Qle, py_int. simpl. intros H0 Hn.
  rewrite Z.quot_div_nonneg by lia. split.
  - apply Z.div_pos; lia.
  - apply Z.div_le_upper_bound; lia.
Qed.

Lemma clamp_count_range (nbr : Q) : (clamp_count nbr <= 1000)%nat.
Proof.
  unfold clamp_count.
  destruct (py_int_range (py_max (py_min nbr 1000) 0) 1000) as [H0 H1].
  - apply py_max_ge_r.
  - apply py_max_le; [apply py_min_le_r|done].
  - lia.
Qed.

(** [makeScatter] calls the sampler with clamped parameters only. *)
Lemma np_normal_in_range (loc sigma nbr : Q) d :
  np_normal (in_range_only normal) loc (clamp_sigma sigma) (clamp_count nbr) d =
  np_normal normal loc (clamp_sigma sigma) (clamp_count nbr) d.
Proof.
  unfold np_normal, in_range_only.
  destruct (clamp_sigma_range sigma) as [H0 H1].
  apply Qle_bool_iff in H0, H1. rewrite H0, H1.
  pose proof (clamp_count_range nbr) as Hc. apply Nat.leb_le in Hc. rewrite Hc.
  reflexivity.
Qed.

Lemma makeScatter_in_range event d :
  makeScatter (in_range_only normal) color_ok event d = makeScatter normal color_ok event d.
Proof.
  unfold makeScatter, bind, get.
  change (py_max (py_min (sigmaScatter d) 50) 0) with (clamp_sigma (sigmaScatter d)).
  change (Z.to_nat (py_int (py_max (py_min (nbrPointsScatter d) 1000) 0)))
    with (clamp_count (nbrPointsScatter d)).
  rewrite np_normal_in_range.
  destruct (np_normal normal _ _ _ d) as [[listX|e] d1]; [|reflexivity].
  rewrite np_normal_in_range. reflexivity.
Qed.

(** The two entries are read once, before sampling: a run from other
    entry values with the same clamped values differs in the entries only. *)
Lemma scatter_one_retune (xy : Q * Q) (sigma nbr : Q) d :
  scatter_one color_ok xy (retune sigma nbr d) =
  (fst (scatter_one color_ok xy d), retune sigma nbr (snd (scatter_one color_ok xy d))).
Proof.
  unfold scatter_one, bind, get, modify, create_oval. simpl.
  destruct (color_ok _); reflexivity.
Qed.

Lemma scatter_loop_retune (pts : list (Q * Q)) (sigma nbr : Q) d :
  for_each pts (scatter_one color_ok) (retune sigma nbr d) =
  (fst (for_each pts (scatter_one color_ok) d),
   retune sigma nbr (snd (for_each pts (scatter_one color_ok) d))).
Proof.
  revert d. induction pts as [|xy pts IH]; intros d; [reflexivity|].
  simpl. unfold bind. rewrite scatter_one_retune.
  destruct (scatter_one color_ok xy d) as [[[]|e] d1]; simpl; [apply IH|reflexivity].
Qed.

Lemma makeScatter_retune event (s1 n1 s2 n2 : Q) d :
  clamp_sigma s1 = clamp_sigma s2 -> clamp_count n1 = clamp_count n2 ->
  makeScatter normal color_ok event (retune s1 n1 d) =
  (fst (makeScatter normal color_ok event (retune s2 n2 d)),
   retune s1 n1 (snd (makeScatter normal color_ok event (retune s2 n2 d)))).
Proof.
  intros Hs Hn. unfold makeScatter, bind, get, np_normal. simpl.
  change (py_max (py_min s1 50) 0) with (clamp_sigma s1).
  change (py_max (py_min s2 50) 0) with (clamp_sigma s2).
  change (Z.to_nat (py_int (py_max (py_min n1 1000) 0))) with (clamp_count n1).
  change (Z.to_nat (py_int (py_max (py_min n2 1000) 0))) with (clamp_count n2).
  rewrite Hs, Hn.
  set (rx := normal _ _ _ _). set (ry := normal _ _ _ _).
  change (with_np_random (snd ry) (with_np_random (snd rx) (retune s1 n1 d)))
    with (retune s1 n1 (with_np_random (snd ry) d)).
  rewrite scatter_loop_retune.
  change (with_np_random (snd ry) (with_np_random (snd rx) (retune s2 n2 d)))
    with (retune s2 n2 (with_np_random (snd ry) d)).
  rewrite (scatter_loop_retune _ s2 n2). reflexivity.
Qed.

(** *** What [_delete_points] removes *)


Lemma erased_myData (ex ey t : Q) d :
  myData (erased ex ey t d) = List.filter (fun p => negb (near ex ey t p)) (myData d).
Proof.
  unfold erased, drop_indices. simpl.
  apply drop_indices_from_filter. intros i p Hp. simpl.
  rewrite elem_of_indices_where. split.
  - intros (q & _ & Hq & Hn). rewrite Nat.sub_0_r in Hq. congruence.
  - intros Hn. exists p. rewrite Nat.sub_0_r. split; [lia|done].
Qed.




(** *** Squared distance and Euclidean distance *)





Lemma scattered_myData (pts : list (Q * Q)) d :
  myData (scattered pts d) =
  myData d ++ ((fun xy => (fst xy, snd xy, CStr (classPoint d))) <$> pts).
Proof.
  revert d. induction pts as [|xy pts IH]; intros d.
  - simpl. by rewrite app_nil_r.
  - unfold scattered in *. simpl. rewrite IH. simpl. by rewrite <- app_assoc.
Qed.


End Methods.

(** * The store *)

(** C1. Alignment invariant: after every sequence of operations on a new
    object (edits of the two entries, class buttons, press / move /
    release with their clusters and erasures, save, load, clear, undo and
    direct additions of a point), [myData] and [myPointsID] have the same
    length, and the handle at each index is the live marker of the point
    at that index. The toolkit is assumed to know the colours red, green
    and blue. *)
Theorem store_alignment {Rng : Type} (normal : Rng -> Q -> Q -> nat -> list Q * Rng)
        (color_ok : cell -> bool) (area : Canvas) (sigma nbr : Q) (g : Rng)
        (fs : gmap string DataFrame) (os : list op) :
  knows_labels color_ok ->
  let d := run_ops normal color_ok os (init area sigma nbr g fs) in
  length (myData d) = length (myPointsID d) /\
  forall i p h, myData d !! i = Some p -> myPointsID d !! i = Some h ->
                items (drawingArea d) !! h = Some (marker (sizePoint d) p).
Proof.
  intros Hk d.
  assert (Hi : inv d) by (apply inv_run_ops; [done|apply inv_init]).
  destruct Hi as [[Hp _ _] _]. by apply Forall2_same_length_lookup in Hp.
Qed.

Lemma store_alignment_witness :
  knows_labels named_color /\
  let d := run_ops replay_normal named_color session fresh_store in
  length (myData d) = length (myPointsID d) /\
  forall i p h, myData d !! i = Some p -> myPointsID d !! i = Some h ->
                items (drawingArea d) !! h = Some (marker (sizePoint d) p).
Proof.
  split; [by repeat split|].
  apply (store_alignment replay_normal named_color blank_canvas 10 5 0%nat ∅ session).
  by repeat split.
Defined.






(** C4. Undo: on an aligned store whose last point is [p], [undo]
    returns, removes [p] and the last handle, which was the marker of
    [p], deletes that marker from the canvas, and leaves the earlier
    points and handles as they were; on a store without points it raises
    [IndexError] (the empty-store error) and changes nothing. After
    adding (1,1,red) and then (2,2,blue) to a new object, [undo] leaves
    exactly the point (1,1,red). *)
Theorem undo_removes_last {Rng : Type} (color_ok : cell -> bool) (d : @Dataset Rng) :
  knows_labels color_ok ->
  aligned d ->
  (forall ps p, myData d = ps ++ [p] ->
     exists hs h,
       myPointsID d = hs ++ [h] /\ length hs = length ps /\
       items (drawingArea d) !! h = Some (marker (sizePoint d) p) /\
       undo d = (Return tt,
                 with_drawingArea (canvas_delete h (drawingArea d))
                   (with_myPointsID hs (with_myData ps d))) /\
       items (drawingArea (exec undo d)) !! h = None /\
       aligned (exec undo d)) /\
  (myData d = [] -> undo d = (Raise IndexError, d)) /\
  (forall area sigma nbr g fs,
     let d0 : @Dataset Rng := init area sigma nbr g fs in
     let d1 := exec (_draw_point color_ok (CNum 1) (CNum 1) (CStr "red")) d0 in
     let d2 := exec (_draw_point color_ok (CNum 2) (CNum 2) (CStr "blue")) d1 in
     result undo d2 = Return tt /\ myData (exec undo d2) = [(1, 1, CStr "red")]).
Proof.
  intros (Hr & Hg & Hb) Ha. split; [|split].
  - intros ps p Hp. pose proof Ha as [HF _ _]. rewrite Hp in HF.
    apply Forall2_app_inv_l in HF as (hs & k2 & H1 & H2 & Hk).
    assert (Hlen : length k2 = 1%nat) by (apply Forall2_length in H2; simpl in H2; lia).
    destruct k2 as [|h [|? ?]]; try discriminate.
    exists hs, h. split; [done|]. split; [by apply Forall2_length in H1|].
    split; [by inversion H2|].
    unfold exec. rewrite (undo_ok ps p hs h d Hp Hk). split; [done|]. simpl.
    split; [apply lookup_delete_eq|]. by apply (aligned_undone ps p hs h).
  - apply undo_empty.
  - intros area sigma nbr g fs d0 d1 d2. unfold d2, d1, exec, result.
    rewrite draw_point_ok by done. simpl snd. rewrite draw_point_ok by done. simpl snd.
    rewrite (undo_ok [(1, 1, CStr "red")] (2, 2, CStr "blue")
                     [next_id area] (S (next_id area))); done.
Qed.

Lemma undo_removes_last_witness :
  let d := run_ops replay_normal named_color
             [AddPoint (CNum 1) (CNum 1) (CStr "red");
              AddPoint (CNum 2) (CNum 2) (CStr "blue")] fresh_store in
  result undo d = Return tt /\ myData (exec undo d) = [(1, 1, CStr "red")].
Proof.
  intros d.
  assert (Hk : knows_labels named_color) by (by repeat split).
  assert (Ha : aligned d).
  { apply (inv_run_ops replay_normal named_color Hk). apply inv_init. }
  destruct (undo_removes_last named_color d Hk Ha) as (Hlast & _ & _).
  destruct (Hlast [(1, 1, CStr "red")] (2, 2, CStr "blue") eq_refl)
    as (hs & h & _ & _ & _ & Hundo & _).
  unfold exec, result. rewrite Hundo. split; reflexivity.
Defined.

(** C5. Clamping: [makeScatter] passes to the sampler a scale in
    [[0, 50]] and a size of at most 1000, computed from the two entries by
    [max(min(_, 50), 0)] and [int(max(min(_, 1000), 0))]; it never calls
    the sampler outside that range, and the points it adds are the samples
    drawn with the clamped parameters. Two calls whose entries clamp to
    the same values have the same outcome and leave states that differ in
    the entries only; in particular a call with sigma 1000 and count 5000
    behaves as a call with sigma 50 and count 1000. *)
Theorem scatter_clamps {Rng : Type} (normal : Rng -> Q -> Q -> nat -> list Q * Rng)
        (color_ok : cell -> bool) (event : Event) (d : @Dataset Rng) :
  (0 <= clamp_sigma (sigmaScatter d) /\ clamp_sigma (sigmaScatter d) <= 50) /\
  (clamp_count (nbrPointsScatter d) <= 1000)%nat /\
  makeScatter normal color_ok event d =
    makeScatter (in_range_only normal) color_ok event d /\
  (color_ok (CStr (classPoint d)) = true ->
   myData (exec (makeScatter normal color_ok event) d) =
   myData d ++ ((fun xy => (fst xy, snd xy, CStr (classPoint d)))
                  <$> fst (sampled normal event d))) /\
  (forall s1 n1 s2 n2,
     clamp_sigma s1 = clamp_sigma s2 -> clamp_count n1 = clamp_count n2 ->
     makeScatter normal color_ok event (retune s1 n1 d) =
     (fst (makeScatter normal color_ok event (retune s2 n2 d)),
      retune s1 n1 (snd (makeScatter normal color_ok event (retune s2 n2 d))))) /\
  clamp_sigma 1000 = 50 /\ clamp_count 5000 = 1000%nat /\
  makeScatter normal color_ok event (retune 1000 5000 d) =
  (fst (makeScatter normal color_ok event (retune 50 1000 d)),
   retune 1000 5000 (snd (makeScatter normal color_ok event (retune 50 1000 d)))).
Proof.
  split; [apply clamp_sigma_range|]. split; [apply clamp_count_range|].
  split; [symmetry; apply makeScatter_in_range|]. split; [|split; [|split; [|split]]].
  - intros Hc. unfold exec. rewrite makeScatter_ok by done. simpl.
    by rewrite scattered_myData.
  - intros s1 n1 s2 n2. apply makeScatter_retune.
  - reflexivity.
  - reflexivity.
  - by apply makeScatter_retune.
Qed.

(** * The pointer handlers *)

(** C6 (as amended). Drag debounce: while a press is active, a move
    whose squared distance from the last sampled position is at least 25
    (the threshold 5, squared) is handled as a press at the new position,
    which records that position; a move whose squared distance is below 25
    changes nothing. So a squared displacement of 4 gives no sample and a
    squared displacement of 36 gives exactly one press; in a drawing class
    whose colour the canvas knows, that press appends exactly one cluster,
    sampled around the new position. *)
Theorem drag_debounce {Rng : Type} (normal : Rng -> Q -> Q -> nat -> list Q * Rng)
        (color_ok : cell -> bool) (event : Event) (d : @Dataset Rng) (lx ly : Z) :
  last_drawn_x d = Some lx -> last_drawn_y d = Some ly -> threshold d = 5%Z ->
  let dist := ((lx - ev_x event) ^ 2 + (ly - ev_y event) ^ 2)%Z in
  ((25 <= dist)%Z ->
   moveButton normal color_ok event d = pressButton normal color_ok event d /\
   last_drawn_x (exec (moveButton normal color_ok event) d) = Some (ev_x event) /\
   last_drawn_y (exec (moveButton normal color_ok event) d) = Some (ev_y event)) /\
  ((dist < 25)%Z -> moveButton normal color_ok event d = (Return tt, d)) /\
  (dist = 4%Z -> moveButton normal color_ok event d = (Return tt, d)) /\
  (dist = 36%Z ->
   moveButton normal color_ok event d = pressButton normal color_ok event d) /\
  ((25 <= dist)%Z -> String.eqb (classPoint d) "erase" = false ->
   color_ok (CStr (classPoint d)) = true ->
   myData (exec (moveButton normal color_ok event) d) =
   myData d ++ ((fun xy => (fst xy, snd xy, CStr (classPoint d)))
                  <$> fst (sampled normal event d))).
Proof.
  intros Hx Hy Ht dist.
  assert (Hmove : moveButton normal color_ok event d =
                  if (25 <=? dist)%Z then pressButton normal color_ok event d
                  else (Return tt, d)).
  { rewrite (moveButton_dragging normal color_ok event d lx ly Hx Hy). by rewrite Ht. }
  assert (Hfar : (25 <= dist)%Z ->
                 moveButton normal color_ok event d = pressButton normal color_ok event d).
  { intros H%Z.leb_le. by rewrite Hmove, H. }
  assert (Hclose : (dist < 25)%Z -> moveButton normal color_ok event d = (Return tt, d)).
  { intros H%Z.leb_gt. by rewrite Hmove, H. }
  split; [|split; [done|split; [|split]]].
  - intros H. split; [by apply Hfar|]. unfold exec. rewrite (Hfar H).
    apply press_records_position.
  - intros H. apply Hclose. lia.
  - intros H. apply Hfar. lia.
  - intros H He Hc. unfold exec. rewrite (Hfar H), pressButton_draw by done.
    rewrite makeScatter_ok by done. simpl. by rewrite scattered_myData.
Qed.

Lemma drag_debounce_witness :
  let d := pressed_at_origin in
  exec (moveButton replay_normal named_color (mk_event 2 0)) d = d /\
  length (myData d) = 5%nat /\
  length (myData (exec (moveButton replay_normal named_color (mk_event 6 0)) d)) = 10%nat /\
  last_drawn_x (exec (moveButton replay_normal named_color (mk_event 6 0)) d) = Some 6%Z.
Proof.
  intros d.
  destruct (drag_debounce replay_normal named_color (mk_event 2 0) d 0 0
              eq_refl eq_refl eq_refl) as (_ & Hclose & _).
  destruct (drag_debounce replay_normal named_color (mk_event 6 0) d 0 0
              eq_refl eq_refl eq_refl) as (Hfar & _ & _).
  destruct Hfar as (Hpress & Hlx & _); [by vm_compute|].
  split; [|split; [reflexivity|split; [|exact Hlx]]].
  - unfold exec. by rewrite Hclose.
  - unfold exec. rewrite Hpress. reflexivity.
Defined.

(** C6 as stated fails at the boundary: a move by (5, 0) from the last
    sampled position has squared distance 25, which does not exceed 25,
    and it draws a new cluster and records the new position. *)
Lemma drag_threshold_inclusive :
  let d := pressed_at_origin in
  let d' := exec (moveButton replay_normal named_color (mk_event 5 0)) d in
  last_drawn_x d = Some 0%Z /\ last_drawn_y d = Some 0%Z /\
  ((0 - 5) ^ 2 + (0 - 0) ^ 2 = 25)%Z /\ ~ (25 < 25)%Z /\
  length (myData d) = 5%nat /\ length (myData d') = 10%nat /\
  last_drawn_x d' = Some 5%Z.
Proof. repeat split; try reflexivity. lia. Qed.



(** * Files *)

(** C7. Export format: [saveData] with a chosen file returns and writes
    a table with the header x, y, color and one row per stored point, in
    store order; a row holds the two coordinates of its point exactly as
    stored and the label with red as 0, green as 1 and blue as 2. The
    store itself is not changed. *)
Theorem export_format {Rng : Type} (d : @Dataset Rng) (name : string) :
  let d' := exec (saveData (Some name)) d in
  result (saveData (Some name)) d = Return tt /\
  (exists t,
     files d' !! name = Some t /\
     columns t = ["x"; "y"; "color"]%string /\
     length (rows t) = length (myData d) /\
     forall i p, myData d !! i = Some p ->
                 rows t !! i = Some [CNum (point_x p); CNum (point_y p);
                                     encode_color (point_color p)]) /\
  encode_color (CStr "red") = CNum 0 /\
  encode_color (CStr "green") = CNum 1 /\
  encode_color (CStr "blue") = CNum 2 /\
  myData d' = myData d /\ myPointsID d' = myPointsID d /\
  drawingArea d' = drawingArea d.
Proof.
  intros d'. unfold d', exec, result. rewrite saveData_ok. simpl.
  split; [done|]. split; [|done].
  eexists. split; [apply lookup_insert_eq|]. simpl. split; [done|].
  split; [by rewrite length_fmap|].
  intros i p Hp. by rewrite list_lookup_fmap, Hp.
Qed.

(** C8. Cancelled dialogs: when the save dialog is cancelled [saveData]
    returns and the whole state, files included, is unchanged; when the
    open dialog is cancelled [loadData] stops with the error of reading
    the empty file name, and the whole state, the two lists included, is
    unchanged. *)
Theorem cancelled_dialogs {Rng : Type} (color_ok : cell -> bool) (d : @Dataset Rng) :
  saveData None d = (Return tt, d) /\
  loadData color_ok None d = (Raise FileNotFoundError, d) /\
  myData (exec (loadData color_ok None) d) = myData d /\
  myPointsID (exec (loadData color_ok None) d) = myPointsID d /\
  files (exec (saveData None) d) = files d.
Proof.
  assert (Hload : loadData color_ok None d = (Raise FileNotFoundError, d))
    by apply loadData_cancelled.
  unfold exec. rewrite Hload. repeat split.
Qed.




(** * Further properties of the methods *)

Section MoreMethods.

Context {Rng : Type}.
Variable normal : Rng -> Q -> Q -> nat -> list Q * Rng.
Variable color_ok : cell -> bool.

Implicit Types (d : @Dataset Rng) (event : Event).

(** ** One turn of each loop *)

Lemma scatter_one_rejected (xy : Q * Q) d :
  color_ok (CStr (classPoint d)) = false ->
  scatter_one color_ok xy d =
  (Raise TclError, with_myData (myData d ++ [labelled (classPoint d) xy]) d).
Proof.
  intros Hc. unfold scatter_one, bind, get, modify, create_oval. simpl.
  by rewrite Hc.
Qed.

Lemma scatter_one_cases (xy : Q * Q) d :
  scatter_one color_ok xy d =
    (Return tt, stored (fst xy) (snd xy) (CStr (classPoint d)) d) \/
  scatter_one color_ok xy d =
    (Raise TclError, with_myData (myData d ++ [labelled (classPoint d) xy]) d).
Proof.
  destruct (color_ok (CStr (classPoint d))) eqn:Hc.
  - left. by apply scatter_body_ok.
  - right. by apply scatter_one_rejected.
Qed.

Lemma delete_marker_at_cases (i : nat) d :
  (exists h, myPointsID d !! i = Some h /\
             delete_marker_at i d =
             (Return tt, with_drawingArea (canvas_delete h (drawingArea d)) d)) \/
  (myPointsID d !! i = None /\ delete_marker_at i d = (Raise IndexError, d)).
Proof.
  destruct (myPointsID d !! i) as [h|] eqn:Hh.
  - left. exists h. split; [done|]. by apply delete_marker_at_found.
  - right. split; [done|]. unfold delete_marker_at, bind, get. by rewrite Hh.
Qed.

(** ** What a cluster looks like in the store *)

Lemma scattered_myPointsID (pts : list (Q * Q)) d :
  myPointsID (scattered pts d) =
  myPointsID d ++ seq (next_id (drawingArea d)) (length pts).
Proof.
  revert d. induction pts as [|xy pts IH]; intros d.
  - simpl. by rewrite app_nil_r.
  - unfold scattered in *. simpl foldl. rewrite IH. simpl. by rewrite <- app_assoc.
Qed.

Lemma scattered_next_id (pts : list (Q * Q)) d :
  next_id (drawingArea (scattered pts d)) = (next_id (drawingArea d) + length pts)%nat.
Proof.
  revert d. induction pts as [|xy pts IH]; intros d.
  - simpl. lia.
  - unfold scattered in *. simpl foldl. rewrite IH. simpl. lia.
Qed.

Lemma scattered_points (pts : list (Q * Q)) d :
  myData (scattered pts d) = myData d ++ (labelled (classPoint d) <$> pts).
Proof. apply scattered_myData. Qed.

Lemma sampled_length event d :
  exact_size normal ->
  length (fst (sampled normal event d)) = clamp_count (nbrPointsScatter d).
Proof.
  intros Hn. unfold sampled. simpl. rewrite length_combine, !Hn. lia.
Qed.

(** ** The clamped parameters, case by case *)

Lemma Qlt_bool_iff (a b : Q) : Qlt_bool a b = true <-> a < b.
Proof.
  unfold Qlt_bool. rewrite negb_true_iff. split.
  - intros H. apply Qnot_le_lt. intros Hle. apply Qle_bool_iff in Hle. congruence.
  - intros H. destruct (Qle_bool b a) eqn:Hb; [|done].
    apply Qle_bool_iff in Hb. exfalso. by apply (Qlt_not_le a b).
Qed.

Lemma Qlt_bool_not (a b : Q) : b <= a -> Qlt_bool a b = false.
Proof.
  intros H. destruct (Qlt_bool a b) eqn:Hab; [|done].
  apply Qlt_bool_iff in Hab. exfalso. by apply (Qlt_not_le a b).
Qed.

Lemma py_int_floor (q : Q) (k : Z) :
  (0 <= k)%Z -> inject_Z k <= q -> q < inject_Z (k + 1) -> py_int q = k.
Proof.
  destruct q as [a b]. unfold Qle, Qlt, py_int. simpl. intros Hk Hlo Hhi.
  rewrite Z.quot_div_nonneg by lia.
  symmetry. apply (Z.div_unique a (Z.pos b) k (a - Z.pos b * k)); lia.
Qed.

Lemma clamp_sigma_below (sigma : Q) : sigma < 0 -> clamp_sigma sigma = 0.
Proof.
  intros H. unfold clamp_sigma, py_min.
  rewrite (Qlt_bool_not 50 sigma).
  - unfold py_max. by rewrite (proj2 (Qlt_bool_iff sigma 0) H).
  - apply Qlt_le_weak. by apply (Qlt_trans sigma 0 50).
Qed.

Lemma clamp_sigma_inside (sigma : Q) : 0 <= sigma -> sigma <= 50 -> clamp_sigma sigma = sigma.
Proof.
  intros H0 H1. unfold clamp_sigma, py_min, py_max.
  rewrite (Qlt_bool_not 50 sigma H1). by rewrite (Qlt_bool_not sigma 0 H0).
Qed.

Lemma clamp_sigma_above (sigma : Q) : 50 < sigma -> clamp_sigma sigma = 50.
Proof.
  intros H. unfold clamp_sigma, py_min.
  by rewrite (proj2 (Qlt_bool_iff 50 sigma) H).
Qed.

Lemma clamp_count_floor (nbr : Q) (k : Z) :
  (0 <= k < 1000)%Z -> inject_Z k <= nbr -> nbr < inject_Z (k + 1) ->
  clamp_count nbr = Z.to_nat k.
Proof.
  intros Hk Hlo Hhi. unfold clamp_count, py_min, py_max.
  assert (H0 : 0 <= nbr).
  { apply (Qle_trans 0 (inject_Z k)); [|done]. unfold Qle. simpl. lia. }
  assert (H1 : nbr <= 1000).
  { apply Qlt_le_weak. apply (Qlt_le_trans nbr (inject_Z (k + 1))); [done|].
    unfold Qle. simpl. lia. }
  rewrite (Qlt_bool_not 1000 nbr H1), (Qlt_bool_not nbr 0 H0).
  rewrite (py_int_floor nbr k); [done|lia|done|done].
Qed.

Lemma clamp_count_below (nbr : Q) : nbr < 1 -> clamp_count nbr = 0%nat.
Proof.
  intros H. destruct (Qlt_le_dec nbr 0) as [Hneg|Hpos].
  - unfold clamp_count, py_min, py_max.
    rewrite (Qlt_bool_not 1000 nbr).
    + by rewrite (proj2 (Qlt_bool_iff nbr 0) Hneg).
    + apply Qlt_le_weak. by apply (Qlt_trans nbr 1 1000).
  - by apply (clamp_count_floor nbr 0).
Qed.

Lemma clamp_count_above (nbr : Q) : 1000 <= nbr -> clamp_count nbr = 1000%nat.
Proof.
  intros H. unfold clamp_count, py_min.
  destruct (Qlt_bool 1000 nbr) eqn:Hb; [reflexivity|].
  apply Qlt_bool_false in Hb. unfold py_max.
  rewrite (Qlt_bool_not nbr 0).
  - rewrite (py_int_floor nbr 1000); [done|done|done|].
    apply (Qle_lt_trans nbr 1000); [done|reflexivity].
  - by apply (Qle_trans 0 1000).
Qed.

Lemma makeScatter_unfold event d :
  makeScatter normal color_ok event d =
  for_each (fst (sampled normal event d)) (scatter_one color_ok)
           (with_np_random (snd (sampled normal event d)) d).
Proof. reflexivity. Qed.

(** ** The loops in every outcome *)

Lemma with_drawingArea_id d : with_drawingArea (drawingArea d) d = d.
Proof. by destruct d. Qed.

(** The first loop of [_delete_points] deletes markers of the store only,
    and stops with [IndexError] exactly when an index has no handle. *)
Lemma delete_marker_loop_any (idx : list nat) d :
  exists hs o,
    for_each idx delete_marker_at d =
      (o, with_drawingArea (delete_all hs (drawingArea d)) d) /\
    (forall h, h ∈ hs -> h ∈ myPointsID d) /\
    ((o = Return tt /\ forall i, i ∈ idx -> is_Some (myPointsID d !! i)) \/
     (o = Raise IndexError /\ exists i, i ∈ idx /\ myPointsID d !! i = None)).
Proof.
  revert d. induction idx as [|i idx IH]; intros d.
  - exists [], (Return tt). simpl. rewrite with_drawingArea_id.
    split; [done|]. split; [by intros h Hh; inversion Hh|]. left. split; [done|].
    intros i Hi. inversion Hi.
  - destruct (delete_marker_at_cases i d) as [(h & Hh & Hrun)|[Hh Hrun]].
    + destruct (IH (with_drawingArea (canvas_delete h (drawingArea d)) d))
        as (hs & o & Hloop & Hsub & Hout).
      exists (h :: hs), o. simpl for_each. unfold bind. rewrite Hrun, Hloop.
      split; [reflexivity|]. split.
      * intros g [->|Hg]%elem_of_cons; [by eapply list_elem_of_lookup_2|by apply Hsub].
      * destruct Hout as [[-> Hall]|[-> (j & Hj & Hnone)]].
        -- left. split; [done|]. intros j [->|Hj]%elem_of_cons; [by eexists|by apply Hall].
        -- right. split; [done|]. exists j. split; [apply elem_of_cons; by right|done].
    + exists [], (Raise IndexError). simpl for_each. unfold bind. rewrite Hrun.
      simpl. rewrite with_drawingArea_id. split; [done|].
      split; [by intros h Hin; inversion Hin|]. right. split; [done|].
      exists i. split; [apply elem_of_cons; by left|done].
Qed.

Lemma delete_points_any event d :
  let idx := indices_where 0 (near (inject_Z (ev_x event)) (inject_Z (ev_y event))
                                   (sigmaScatter d * sigmaScatter d)) (myData d) in
  ((forall i, i ∈ idx -> is_Some (myPointsID d !! i)) /\
   _delete_points event d =
   (Return tt, erased (inject_Z (ev_x event)) (inject_Z (ev_y event))
                      (sigmaScatter d * sigmaScatter d) d)) \/
  (exists hs i,
     i ∈ idx /\ myPointsID d !! i = None /\ (forall h, h ∈ hs -> h ∈ myPointsID d) /\
     _delete_points event d =
     (Raise IndexError, with_drawingArea (delete_all hs (drawingArea d)) d)).
Proof.
  intros idx.
  destruct (delete_marker_loop_any idx d) as (hs & o & Hloop & Hsub & Hout).
  destruct Hout as [[-> Hall]|[-> (i & Hi & Hnone)]].
  - left. split; [done|]. unfold _delete_points, erased.
    unfold bind at 1. unfold get at 1. cbv beta iota zeta.
    unfold bind at 1. unfold bind at 1. fold idx.
    rewrite (delete_marker_loop idx d Hall). reflexivity.
  - right. exists hs, i. split; [done|]. split; [done|]. split; [done|].
    unfold _delete_points.
    unfold bind at 1. unfold get at 1. cbv beta iota zeta.
    unfold bind at 1. unfold bind at 1. fold idx. by rewrite Hloop.
Qed.

(** [undo] case by case, also on a store whose lists are out of step. *)
Lemma undo_no_handle (ps : list Point) (p : Point) d :
  myData d = ps ++ [p] -> myPointsID d = [] ->
  undo d = (Raise IndexError, with_myData ps d).
Proof.
  intros Hp Hh. unfold undo, bind, pop_myData, pop_myPointsID.
  rewrite Hp, rev_unit. simpl. rewrite Hh, rev_involutive. reflexivity.
Qed.

Lemma list_snoc_cases {A : Type} (l : list A) : l = [] \/ exists l' a, l = l' ++ [a].
Proof.
  induction l as [|a l' _] using rev_ind; [by left|]. right. by exists l', a.
Qed.

(** The loop of [makeScatter] only ever appends. *)
Lemma scatter_loop_appends (pts : list (Q * Q)) d :
  let d' := exec (for_each pts (scatter_one color_ok)) d in
  myData d `prefix_of` myData d' /\ myPointsID d `prefix_of` myPointsID d' /\
  same_controls d d' /\ np_random d' = np_random d.
Proof.
  apply (for_each_keeps
           (fun st => myData d `prefix_of` myData st /\
                      myPointsID d `prefix_of` myPointsID st /\
                      same_controls d st /\ np_random st = np_random d)).
  - intros xy st (Hp & Hh & Hc & Hg). unfold exec.
    destruct (scatter_one_cases xy st) as [-> | ->]; simpl.
    + split; [by apply prefix_app_r|]. split; [by apply prefix_app_r|].
      split; [|done]. eapply same_controls_trans; [exact Hc|apply same_controls_stored].
    + split; [by apply prefix_app_r|]. split; [done|]. split; [|done].
      eapply same_controls_trans; [exact Hc|]. repeat split.
  - split; [done|]. split; [done|]. split; [apply same_controls_refl|done].
Qed.

(** ** Erasing where nothing is in range *)

Lemma indices_where_none {A : Type} (f : A -> bool) (l : list A) (k : nat) :
  (forall a, a ∈ l -> f a = false) -> indices_where k f l = [].
Proof.
  revert k. induction l as [|a l IH]; intros k H; [reflexivity|].
  unfold indices_where, enumerate in *. simpl.
  rewrite (H a) by (apply elem_of_cons; by left). simpl.
  apply IH. intros b Hb. apply H. apply elem_of_cons. by right.
Qed.

Lemma drop_indices_from_none {A : Type} (l : list A) (k : nat) :
  drop_indices_from k [] l = l.
Proof.
  revert k. induction l as [|a l IH]; intros k; [reflexivity|].
  unfold drop_indices_from, enumerate in *. simpl. by rewrite IH.
Qed.

Lemma drop_indices_from_length {A B : Type} (idx : list nat) (l : list A) (m : list B)
      (k : nat) :
  length l = length m ->
  length (drop_indices_from k idx l) = length (drop_indices_from k idx m).
Proof.
  revert k m. induction l as [|a l IH]; intros k [|b m] Hlen; try discriminate; [done|].
  rewrite !drop_indices_from_cons. simpl in Hlen.
  destruct (bool_decide (k ∈ idx)); simpl; rewrite (IH (S k) m); lia.
Qed.

Lemma erased_nothing (ex ey t : Q) d :
  indices_where 0 (near ex ey t) (myData d) = [] -> erased ex ey t d = d.
Proof.
  intros H. unfold erased. rewrite H. simpl. unfold drop_indices.
  rewrite !drop_indices_from_none. by destruct d.
Qed.

Lemma erased_lengths (ex ey t : Q) d :
  length (myData d) = length (myPointsID d) ->
  length (myData (erased ex ey t d)) = length (myPointsID (erased ex ey t d)).
Proof. intros H. unfold erased, drop_indices. simpl. by apply drop_indices_from_length. Qed.

(** ** Labels through a file *)



(** ** Items of the window that are not markers *)

Section Foreign.

Variable area : Canvas.

Lemma kf_same d d' :
  myPointsID d' = myPointsID d -> drawingArea d' = drawingArea d ->
  keeps_foreign area d -> keeps_foreign area d'.
Proof. intros Hh Hc (H1 & H2 & H3). unfold keeps_foreign. by rewrite Hh, Hc. Qed.

Lemma kf_stored (x y : Q) (c : cell) d :
  keeps_foreign area d -> keeps_foreign area (stored x y c d).
Proof.
  intros (H1 & H2 & H3). split; [simpl; lia|]. split; simpl.
  - intros h [Hin| ->%list_elem_of_singleton]%elem_of_app; [by apply H2|done].
  - intros h Hh. rewrite lookup_insert_ne by lia. by apply H3.
Qed.

Lemma kf_deleted (hs : list nat) d :
  (forall h, h ∈ hs -> h ∈ myPointsID d) ->
  keeps_foreign area d ->
  keeps_foreign area (with_drawingArea (delete_all hs (drawingArea d)) d).
Proof.
  intros Hsub (H1 & H2 & H3). split; [simpl; by rewrite delete_all_next_id|].
  split; simpl; [done|].
  intros h Hh. rewrite delete_all_lookup, decide_False; [by apply H3|].
  intros Hin. apply Hsub, H2 in Hin. lia.
Qed.

Lemma kf_fewer_handles (ids : list nat) d :
  (forall h, h ∈ ids -> h ∈ myPointsID d) ->
  keeps_foreign area d -> keeps_foreign area (with_myPointsID ids d).
Proof.
  intros Hsub (H1 & H2 & H3). split; [done|]. split; simpl; [|done].
  intros h Hh. by apply H2, Hsub.
Qed.

Lemma kf_draw_point (x y c : cell) d :
  keeps_foreign area d -> keeps_foreign area (exec (_draw_point color_ok x y c) d).
Proof.
  intros Hk. unfold exec.
  destruct (draw_point_cases color_ok x y c d) as [(xn & yn & _ & _ & _ & ->)|[e ->]];
    [by apply kf_stored|done].
Qed.

Lemma kf_makeScatter event d :
  keeps_foreign area d ->
  keeps_foreign area (exec (makeScatter normal color_ok event) d).
Proof.
  intros Hk. unfold exec. rewrite makeScatter_unfold.
  apply (for_each_keeps (keeps_foreign area)).
  - intros xy st Hst. unfold exec.
    destruct (scatter_one_cases xy st) as [-> | ->]; simpl.
    + by apply kf_stored.
    + eapply kf_same; [| |exact Hst]; reflexivity.
  - eapply kf_same; [| |exact Hk]; reflexivity.
Qed.

Lemma kf_delete_points event d :
  keeps_foreign area d -> keeps_foreign area (exec (_delete_points event) d).
Proof.
  intros Hk. unfold exec.
  destruct (delete_points_any event d) as [[_ ->]|(hs & i & _ & _ & Hsub & ->)]; simpl.
  - unfold erased.
    set (idx := indices_where _ _ _).
    apply (kf_fewer_handles (drop_indices idx (myPointsID d))
             (with_myData (drop_indices idx (myData d))
                (with_drawingArea
                   (delete_all (omap (fun i => myPointsID d !! i) idx) (drawingArea d)) d))).
    + intros h Hh. simpl. eapply elem_of_sublist; [exact Hh|].
      apply drop_indices_from_sublist.
    + eapply kf_same; [| |apply (kf_deleted (omap (fun i => myPointsID d !! i) idx) d)];
        [reflexivity|reflexivity| |exact Hk].
      intros h (j & _ & Hj)%list_elem_of_omap. by eapply list_elem_of_lookup_2.
  - by apply kf_deleted.
Qed.

Lemma kf_press event d :
  keeps_foreign area d ->
  keeps_foreign area (exec (pressButton normal color_ok event) d).
Proof.
  intros Hk.
  assert (Hk1 : keeps_foreign area
                  (with_last_drawn (Some (ev_x event)) (Some (ev_y event)) d))
    by (eapply kf_same; [| |exact Hk]; reflexivity).
  unfold exec. destruct (String.eqb (classPoint d) "erase") eqn:He.
  - rewrite pressButton_erase by done. by apply kf_delete_points.
  - rewrite pressButton_draw by done. by apply kf_makeScatter.
Qed.

Lemma kf_move event d :
  keeps_foreign area d ->
  keeps_foreign area (exec (moveButton normal color_ok event) d).
Proof.
  intros Hk. unfold exec, moveButton, bind, get.
  destruct (last_drawn_x d) as [lx|]; [|done].
  destruct (last_drawn_y d) as [ly|]; [|done].
  destruct (_ <=? _)%Z; [by apply kf_press|done].
Qed.

Lemma kf_release event d :
  keeps_foreign area d ->
  keeps_foreign area (exec (releaseButton normal color_ok event) d).
Proof.
  intros Hk. unfold releaseButton. rewrite exec_bind.
  pose proof (kf_move event d Hk) as Hm. unfold exec in Hm.
  destruct (moveButton normal color_ok event d) as [[[]|e] d1]; simpl in Hm; [|done].
  unfold exec, modify. simpl. eapply kf_same; [| |exact Hm]; reflexivity.
Qed.

Lemma kf_load (choice : option string) d :
  keeps_foreign area d ->
  keeps_foreign area (exec (loadData color_ok choice) d).
Proof.
  intros Hk. unfold loadData. rewrite exec_bind. unfold read_csv.
  destruct (String.eqb _ ""); [done|].
  destruct (files d !! _) as [df|]; [|done].
  destruct (replace_column "color" decode_color df) as [df'|]; [|done].
  apply for_each_keeps; [|done]. intros row st Hst.
  unfold load_row, row_item.
  destruct (row_get (columns df') "x" row) as [x|]; [|done].
  destruct (row_get (columns df') "y" row) as [y|]; [|done].
  destruct (row_get (columns df') "color" row) as [c|]; [|done].
  by apply kf_draw_point.
Qed.

Lemma kf_clear d :
  keeps_foreign area d -> keeps_foreign area (exec clearCanvas d).
Proof.
  intros Hk. unfold exec. rewrite clearCanvas_ok. simpl.
  apply (kf_fewer_handles []
           (with_myData [] (with_drawingArea (delete_all (myPointsID d) (drawingArea d)) d))).
  - intros h Hh. inversion Hh.
  - eapply kf_same; [| |apply (kf_deleted (myPointsID d) d)];
      [reflexivity|reflexivity|done|exact Hk].
Qed.

Lemma kf_undo d :
  keeps_foreign area d -> keeps_foreign area (exec undo d).
Proof.
  intros Hk. unfold exec.
  destruct (list_snoc_cases (myData d)) as [Hp|(ps & p & Hp)].
  - by rewrite undo_empty.
  - destruct (list_snoc_cases (myPointsID d)) as [Hh|(hs & h & Hh)].
    + rewrite (undo_no_handle ps p d Hp Hh). simpl.
      eapply kf_same; [| |exact Hk]; reflexivity.
    + rewrite (undo_ok ps p hs h d Hp Hh). simpl.
      assert (Hk1 : keeps_foreign area
                      (with_drawingArea (delete_all [h] (drawingArea d)) d)).
      { apply kf_deleted; [|done]. intros g ->%list_elem_of_singleton.
        rewrite Hh. apply elem_of_app. right. by apply list_elem_of_singleton. }
      apply (kf_fewer_handles hs
               (with_drawingArea (canvas_delete h (drawingArea d)) (with_myData ps d))).
      * intros g Hg. simpl. rewrite Hh. apply elem_of_app. by left.
      * eapply kf_same; [| |exact Hk1]; reflexivity.
Qed.

Lemma kf_step (o : op) d :
  keeps_foreign area d -> keeps_foreign area (exec (run_op normal color_ok o) d).
Proof.
  intros Hk. destruct o; simpl.
  - eapply kf_same; [| |exact Hk]; reflexivity.
  - eapply kf_same; [| |exact Hk]; reflexivity.
  - eapply kf_same; [| |exact Hk]; reflexivity.
  - by apply kf_press.
  - by apply kf_move.
  - by apply kf_release.
  - destruct choice as [name|]; [|done]. unfold exec. rewrite saveData_ok. simpl.
    eapply kf_same; [| |exact Hk]; reflexivity.
  - by apply kf_load.
  - by apply kf_clear.
  - by apply kf_undo.
  - by apply kf_draw_point.
Qed.

Lemma kf_run_ops (os : list op) d :
  keeps_foreign area d -> keeps_foreign area (run_ops normal color_ok os d).
Proof.
  revert d. induction os as [|o os IH]; intros d Hk; [done|].
  unfold run_ops in *. simpl. apply IH. by apply kf_step.
Qed.

End Foreign.

(** ** Presses that fail or erase *)

Lemma makeScatter_rejected event d (xy : Q * Q) (rest : list (Q * Q)) :
  color_ok (CStr (classPoint d)) = false ->
  fst (sampled normal event d) = xy :: rest ->
  makeScatter normal color_ok event d =
  (Raise TclError,
   with_myData (myData d ++ [labelled (classPoint d) xy])
               (with_np_random (snd (sampled normal event d)) d)).
Proof.
  intros Hc Hs. rewrite makeScatter_unfold, Hs. simpl for_each. unfold bind.
  by rewrite scatter_one_rejected.
Qed.

Lemma press_erase_shrinks event d :
  classPoint d = "erase"%string ->
  let d' := exec (pressButton normal color_ok event) d in
  classPoint d' = classPoint d /\ sigmaScatter d' = sigmaScatter d /\
  nbrPointsScatter d' = nbrPointsScatter d /\
  np_random d' = np_random d /\
  next_id (drawingArea d') = next_id (drawingArea d) /\
  myData d' `sublist_of` myData d /\
  myPointsID d' `sublist_of` myPointsID d.
Proof.
  intros He d'. unfold d', exec.
  rewrite pressButton_erase by (by apply String.eqb_eq).
  destruct (delete_points_any event
              (with_last_drawn (Some (ev_x event)) (Some (ev_y event)) d))
    as [[_ ->]|(hs & i & _ & _ & _ & ->)]; simpl.
  - split; [done|]. split; [done|]. split; [done|]. split; [done|].
    split; [apply delete_all_next_id|].
    split; apply drop_indices_from_sublist.
  - split; [done|]. split; [done|]. split; [done|]. split; [done|].
    split; [apply delete_all_next_id|]. done.
Qed.

End MoreMethods.

(** ** The store operations the handlers are built from *)

(** X1. [clearCanvas] never raises: it empties both lists, deletes from
    the canvas exactly the items whose handles were in [myPointsID], and
    leaves every other canvas item, the id counter, the generator and the
    controls as they were. *)
Theorem clear_deletes_only_markers {Rng : Type} (d : @Dataset Rng) :
  let d' := exec clearCanvas d in
  result clearCanvas d = Return tt /\
  myData d' = [] /\ myPointsID d' = [] /\
  next_id (drawingArea d') = next_id (drawingArea d) /\
  (forall h, h ∈ myPointsID d -> items (drawingArea d') !! h = None) /\
  (forall h, h ∉ myPointsID d ->
             items (drawingArea d') !! h = items (drawingArea d) !! h) /\
  same_controls d d' /\ np_random d' = np_random d.
Proof.
  intros d'. unfold d', exec, result. rewrite clearCanvas_ok. simpl.
  split; [done|]. split; [done|]. split; [done|].
  split; [apply delete_all_next_id|].
  split; [|split; [|split; [by repeat split|done]]].
  - intros h Hin. by rewrite delete_all_lookup, decide_True.
  - intros h Hnin. by rewrite delete_all_lookup, decide_False.
Qed.

(** X2. [_draw_point] is all or nothing. With two numbers and a colour
    the canvas accepts it returns, having appended the point, a new handle
    equal to the canvas counter, and the marker of the point under that
    handle. With text in a coordinate it raises [TypeError], also when
    the colour is bad as well; with numbers and a colour the canvas
    rejects it raises [TclError]; in both cases nothing at all is changed.
    So the two lists stay as long as each other whatever the outcome. *)
Theorem draw_point_all_or_nothing {Rng : Type} (color_ok : cell -> bool)
        (x y c : cell) (d : @Dataset Rng) :
  let r := _draw_point color_ok x y c d in
  (forall xn yn, x = CNum xn -> y = CNum yn -> color_ok c = true ->
     fst r = Return tt /\
     myData (snd r) = myData d ++ [(xn, yn, c)] /\
     myPointsID (snd r) = myPointsID d ++ [next_id (drawingArea d)] /\
     next_id (drawingArea (snd r)) = S (next_id (drawingArea d)) /\
     items (drawingArea (snd r)) !! next_id (drawingArea d) =
       Some {| x0 := xn - sizePoint d; y0 := yn - sizePoint d;
               x1 := xn + sizePoint d; y1 := yn + sizePoint d; fill := c |}) /\
  (forall xn yn, x = CNum xn -> y = CNum yn -> color_ok c = false ->
     r = (Raise TclError, d)) /\
  ((exists s, x = CStr s) \/ (exists s, y = CStr s) -> r = (Raise TypeError, d)) /\
  (length (myData d) = length (myPointsID d) ->
   length (myData (snd r)) = length (myPointsID (snd r))).
Proof.
  intros r. split; [|split; [|split]].
  - intros xn yn -> -> Hc. unfold r. rewrite draw_point_ok by done. simpl.
    split; [done|]. split; [done|]. split; [done|]. split; [done|].
    apply lookup_insert_eq.
  - intros xn yn -> -> Hc. unfold r, _draw_point, bind, get, as_number, ret, create_oval.
    simpl. by rewrite Hc.
  - intros [[s ->]|[s ->]]; unfold r; [done|]. by destruct x.
  - intros Hlen. unfold r.
    destruct (draw_point_cases color_ok x y c d) as [(xn & yn & _ & _ & _ & ->)|[e ->]];
      simpl; [|done].
    rewrite !length_app. simpl. lia.
Qed.

(** X3. [makeScatter] is not all or nothing: it appends to [myData]
    before it creates the marker. When the canvas rejects the current
    class as a colour and at least one pair is sampled, it raises
    [TclError] with the first sampled point appended to [myData] and with
    no handle and no marker for it; the generator has been advanced by
    both draws. *)
Theorem scatter_rejected_colour {Rng : Type}
        (normal : Rng -> Q -> Q -> nat -> list Q * Rng) (color_ok : cell -> bool)
        (event : Event) (d : @Dataset Rng) (xy : Q * Q) (rest : list (Q * Q)) :
  color_ok (CStr (classPoint d)) = false ->
  fst (sampled normal event d) = xy :: rest ->
  let r := makeScatter normal color_ok event d in
  fst r = Raise TclError /\
  myData (snd r) = myData d ++ [(fst xy, snd xy, CStr (classPoint d))] /\
  myPointsID (snd r) = myPointsID d /\
  drawingArea (snd r) = drawingArea d /\
  np_random (snd r) = snd (sampled normal event d).
Proof.
  intros Hc Hs r. unfold r.
  rewrite (makeScatter_rejected normal color_ok event d xy rest Hc Hs). simpl.
  repeat split.
Qed.

Lemma scatter_rejected_colour_witness :
  let d := run_ops replay_normal named_color [SetClass Erase] fresh_store in
  let r := makeScatter replay_normal named_color (mk_event 100 100) d in
  fst r = Raise TclError /\
  length (myData (snd r)) = 1%nat /\ myPointsID (snd r) = [].
Proof.
  intros d r.
  destruct (scatter_rejected_colour replay_normal named_color (mk_event 100 100) d
              (170 # 2, 220 # 2)
              [(180 # 2, 230 # 2); (190 # 2, 170 # 2); (200 # 2, 180 # 2);
               (210 # 2, 190 # 2)])
    as (Hr & Hd & Hh & _); [by vm_compute|by vm_compute|].
  fold r in Hr, Hd, Hh. rewrite Hr, Hd, Hh. repeat split.
Defined.

(** X4. With a sampler that returns as many samples as asked for and a
    class whose colour the canvas accepts, [makeScatter] returns and adds
    exactly [int(max(min(count, 1000), 0))] points, never more than 1000:
    all of them carry the current class, their handles are the next ids
    of the canvas in order, and the counter moves on by that number. *)
Theorem scatter_adds_clamped_count {Rng : Type}
        (normal : Rng -> Q -> Q -> nat -> list Q * Rng) (color_ok : cell -> bool)
        (event : Event) (d : @Dataset Rng) :
  exact_size normal ->
  color_ok (CStr (classPoint d)) = true ->
  let d' := exec (makeScatter normal color_ok event) d in
  let n := clamp_count (nbrPointsScatter d) in
  result (makeScatter normal color_ok event) d = Return tt /\
  (n <= 1000)%nat /\
  length (myData d') = (length (myData d) + n)%nat /\
  take (length (myData d)) (myData d') = myData d /\
  (forall p, p ∈ drop (length (myData d)) (myData d') ->
             point_color p = CStr (classPoint d)) /\
  myPointsID d' = myPointsID d ++ seq (next_id (drawingArea d)) n /\
  next_id (drawingArea d') = (next_id (drawingArea d) + n)%nat.
Proof.
  intros Hn Hc d' n. unfold d', exec, result. rewrite makeScatter_ok by done.
  pose proof (sampled_length normal event d Hn) as Hlen. fold n in Hlen.
  remember (fst (sampled normal event d)) as pts eqn:Hpts.
  remember (snd (sampled normal event d)) as g eqn:Hg.
  cbn [fst snd].
  rewrite scattered_myData, scattered_myPointsID, scattered_next_id. simpl.
  rewrite Hlen. split; [done|]. split; [apply clamp_count_range|].
  split; [by rewrite length_app, length_fmap, Hlen|].
  split; [by rewrite take_app_length|]. split; [|done].
  intros p. rewrite drop_app_length.
  intros (xy & -> & _)%list_elem_of_fmap. reflexivity.
Qed.

Lemma scatter_adds_clamped_count_witness :
  let d := run_ops replay_normal named_color [SetNbrPoints (7 # 2)] fresh_store in
  let d' := exec (makeScatter replay_normal named_color (mk_event 50 60)) d in
  length (myData d') = 3%nat /\ myPointsID d' = [10; 11; 12]%nat.
Proof.
  intros d d'.
  destruct (scatter_adds_clamped_count replay_normal named_color (mk_event 50 60) d)
    as (_ & _ & Hlen & _ & _ & Hids & _).
  - intros g loc scale size. unfold replay_normal. simpl.
    by rewrite length_fmap, length_seq.
  - reflexivity.
  - fold d' in Hlen, Hids. rewrite Hlen, Hids. split; reflexivity.
Defined.

(** X5. With a count entry below 1 (zero, negative or a fraction) and a
    sampler that returns as many samples as asked for, [makeScatter] asks
    for no sample, so its loop never runs: it returns, whatever the
    current class is, and changes nothing but the generator state. *)
Theorem scatter_nothing_below_one {Rng : Type}
        (normal : Rng -> Q -> Q -> nat -> list Q * Rng) (color_ok : cell -> bool)
        (event : Event) (d : @Dataset Rng) :
  exact_size normal ->
  nbrPointsScatter d < 1 ->
  makeScatter normal color_ok event d =
  (Return tt, with_np_random (snd (sampled normal event d)) d).
Proof.
  intros Hn Hlt. rewrite makeScatter_unfold.
  pose proof (sampled_length normal event d Hn) as Hlen.
  rewrite (clamp_count_below _ Hlt) in Hlen.
  destruct (fst (sampled normal event d)); [reflexivity|discriminate].
Qed.

Lemma scatter_nothing_below_one_witness :
  let d := run_ops replay_normal named_color
             [SetNbrPoints (9 # 10); SetClass Erase] fresh_store in
  result (makeScatter replay_normal named_color (mk_event 50 60)) d = Return tt /\
  myData (exec (makeScatter replay_normal named_color (mk_event 50 60)) d) = [].
Proof.
  intros d. unfold result, exec.
  rewrite (scatter_nothing_below_one replay_normal named_color (mk_event 50 60) d).
  - split; reflexivity.
  - intros g loc scale size. unfold replay_normal. simpl.
    by rewrite length_fmap, length_seq.
  - reflexivity.
Defined.

(** X6. The two clamps of [makeScatter], case by case. Sigma: a negative
    value gives 0, a value in [[0, 50]] is passed on as it is, a larger
    one gives 50. Count: a value below 1 gives 0, a value of 1000 or more
    gives 1000, and a value in between is cut to its integer part. *)
Theorem clamp_cases (sigma nbr : Q) :
  (sigma < 0 -> clamp_sigma sigma = 0) /\
  (0 <= sigma -> sigma <= 50 -> clamp_sigma sigma = sigma) /\
  (50 < sigma -> clamp_sigma sigma = 50) /\
  (nbr < 1 -> clamp_count nbr = 0%nat) /\
  (1000 <= nbr -> clamp_count nbr = 1000%nat) /\
  (forall k : Z, (0 <= k < 1000)%Z -> inject_Z k <= nbr -> nbr < inject_Z (k + 1) ->
                 clamp_count nbr = Z.to_nat k).
Proof.
  split; [apply clamp_sigma_below|]. split; [apply clamp_sigma_inside|].
  split; [apply clamp_sigma_above|]. split; [apply clamp_count_below|].
  split; [apply clamp_count_above|]. intros k. apply clamp_count_floor.
Qed.

(** ** Erasing *)


(** X8. Erasing is idempotent: on a store whose lists have the same
    length, a second [_delete_points] at the same position with the same
    sigma returns and changes nothing, since the first one left no point
    in range. *)
Theorem erase_twice_is_once {Rng : Type} (event : Event) (d : @Dataset Rng) :
  length (myData d) = length (myPointsID d) ->
  _delete_points event (exec (_delete_points event) d) =
  (Return tt, exec (_delete_points event) d).
Proof.
  intros Hlen. unfold exec. rewrite (delete_points_ok event d) by lia. simpl snd.
  set (ex := inject_Z (ev_x event)). set (ey := inject_Z (ev_y event)).
  set (t := sigmaScatter d * sigmaScatter d).
  rewrite delete_points_ok by (rewrite erased_lengths; [done|exact Hlen]).
  fold ex ey. change (sigmaScatter (erased ex ey t d)) with (sigmaScatter d). fold t.
  f_equal. apply erased_nothing. apply indices_where_none.
  intros p. rewrite erased_myData, list_elem_of_In, filter_In.
  intros [_ Hn]. by apply negb_true_iff in Hn.
Qed.

Lemma erase_twice_is_once_witness :
  let d1 := exec (_delete_points (mk_event 0 0)) (three_points 5) in
  _delete_points (mk_event 0 0) d1 = (Return tt, d1) /\
  myData d1 = [(10, 10, CStr "blue")].
Proof.
  intros d1. split; [|by vm_compute].
  apply (erase_twice_is_once (mk_event 0 0) (three_points 5)). by vm_compute.
Defined.

(** ** The pointer handlers and the store *)

(** X9. What a press does depends on the class alone, in every outcome.
    It always records its position. In the class erase it never draws:
    the generator and the id counter are untouched and each list after
    the press is a sublist of the list before. In any other class it
    never erases: each list before the press is a prefix of the list
    after it. The class and the two entries are left as they were. *)
Theorem press_by_class {Rng : Type} (normal : Rng -> Q -> Q -> nat -> list Q * Rng)
        (color_ok : cell -> bool) (event : Event) (d : @Dataset Rng) :
  let d' := exec (pressButton normal color_ok event) d in
  last_drawn_x d' = Some (ev_x event) /\ last_drawn_y d' = Some (ev_y event) /\
  classPoint d' = classPoint d /\ sigmaScatter d' = sigmaScatter d /\
  nbrPointsScatter d' = nbrPointsScatter d /\
  (classPoint d = "erase"%string ->
   np_random d' = np_random d /\
   next_id (drawingArea d') = next_id (drawingArea d) /\
   myData d' `sublist_of` myData d /\ myPointsID d' `sublist_of` myPointsID d) /\
  (classPoint d <> "erase"%string ->
   myData d `prefix_of` myData d' /\ myPointsID d `prefix_of` myPointsID d').
Proof.
  intros d'.
  destruct (press_records_position normal color_ok event d) as [Hx Hy].
  fold d' in Hx, Hy. split; [done|]. split; [done|].
  set (d1 := with_last_drawn (Some (ev_x event)) (Some (ev_y event)) d).
  destruct (String.eqb (classPoint d) "erase") eqn:He.
  - apply String.eqb_eq in He.
    destruct (press_erase_shrinks normal color_ok event d He)
      as (H1 & H2 & H3 & H4 & H5 & H6 & H7).
    fold d' in H1, H2, H3, H4, H5, H6, H7.
    split; [done|]. split; [done|]. split; [done|].
    split; [done|]. intros Hne. by destruct Hne.
  - assert (Hd' : d' = exec (makeScatter normal color_ok event) d1).
    { unfold d', exec. by rewrite pressButton_draw. }
    apply String.eqb_neq in He.
    rewrite Hd'. unfold exec. rewrite makeScatter_unfold.
    destruct (scatter_loop_appends color_ok (fst (sampled normal event d1))
                (with_np_random (snd (sampled normal event d1)) d1))
      as (Hp & Hh & (Hc & _ & _ & _ & Hs & Hn & _) & _).
    unfold exec in Hp, Hh, Hc, Hs, Hn.
    split; [exact Hc|]. split; [exact Hs|]. split; [exact Hn|].
    split; [done|]. intros _. split; [exact Hp|exact Hh].
Qed.



(** X11. During a drag, any number of moves that each stay less than 5
    away from the last sampled position change nothing at all: the
    position recorded is still the last sampled one. *)
Theorem moves_within_threshold {Rng : Type}
        (normal : Rng -> Q -> Q -> nat -> list Q * Rng) (color_ok : cell -> bool)
        (d : @Dataset Rng) (lx ly : Z) (es : list Event) :
  last_drawn_x d = Some lx -> last_drawn_y d = Some ly -> threshold d = 5%Z ->
  Forall (fun e => (moved_sq lx ly e < 25)%Z) es ->
  run_ops normal color_ok (Move <$> es) d = d.
Proof.
  intros Hx Hy Ht HF. induction HF as [|e es He HF IH]; [reflexivity|].
  unfold run_ops in *. simpl. unfold exec at 2.
  rewrite (moveButton_dragging normal color_ok e d lx ly Hx Hy), Ht.
  change (5 ^ 2)%Z with 25%Z. fold (moved_sq lx ly e).
  apply Z.leb_gt in He. rewrite He. exact IH.
Qed.

Lemma moves_within_threshold_witness :
  run_ops replay_normal named_color
    (Move <$> [mk_event 2 0; mk_event 4 0; mk_event 3 3; mk_event (-4) 2])
    pressed_at_origin = pressed_at_origin.
Proof.
  apply (moves_within_threshold replay_normal named_color pressed_at_origin 0 0).
  - by vm_compute.
  - by vm_compute.
  - by vm_compute.
  - repeat constructor.
Defined.

(** ** Undo *)

(** X12. [undo] works by point, not by click: after a press has drawn a
    cluster of at least one point (the colour being accepted), one [undo]
    returns and removes the last point of that cluster only, with its
    handle and its marker; the points before the press and the other
    points of the cluster stay, with their handles. *)
Theorem undo_takes_one_point_of_cluster {Rng : Type}
        (normal : Rng -> Q -> Q -> nat -> list Q * Rng) (color_ok : cell -> bool)
        (event : Event) (d : @Dataset Rng) (pts : list (Q * Q)) (xy : Q * Q) :
  color_ok (CStr (classPoint d)) = true ->
  fst (sampled normal event d) = pts ++ [xy] ->
  let d1 := exec (makeScatter normal color_ok event) d in
  let d2 := exec undo d1 in
  let last := (next_id (drawingArea d) + length pts)%nat in
  myData d1 = myData d ++ (labelled (classPoint d) <$> pts) ++ [labelled (classPoint d) xy] /\
  result undo d1 = Return tt /\
  myData d2 = myData d ++ (labelled (classPoint d) <$> pts) /\
  myPointsID d2 = myPointsID d ++ seq (next_id (drawingArea d)) (length pts) /\
  items (drawingArea d2) !! last = None /\
  (forall h, h <> last -> items (drawingArea d2) !! h = items (drawingArea d1) !! h).
Proof.
  intros Hc Hs d1 d2 last.
  assert (Hd1 : myData d1 =
                (myData d ++ (labelled (classPoint d) <$> pts)) ++
                [labelled (classPoint d) xy]).
  { unfold d1, exec. rewrite makeScatter_ok by done. cbn [snd].
    rewrite scattered_points, Hs, fmap_app. simpl. by rewrite app_assoc. }
  assert (Hh1 : myPointsID d1 =
                (myPointsID d ++ seq (next_id (drawingArea d)) (length pts)) ++ [last]).
  { unfold d1, exec. rewrite makeScatter_ok by done. cbn [snd].
    rewrite scattered_myPointsID, Hs, length_app. simpl.
    rewrite seq_app. simpl. by rewrite app_assoc. }
  pose proof (undo_ok _ _ _ _ d1 Hd1 Hh1) as Hundo.
  split; [by rewrite Hd1, <- app_assoc|].
  unfold d2, exec, result. rewrite Hundo. simpl.
  split; [done|]. split; [done|]. split; [done|].
  split; [apply lookup_delete_eq|]. intros h Hne. by apply lookup_delete_ne.
Qed.

Lemma undo_takes_one_point_of_cluster_witness :
  let d1 := exec (makeScatter replay_normal named_color (mk_event 100 100)) fresh_store in
  length (myData d1) = 5%nat /\
  length (myData (exec undo d1)) = 4%nat /\
  myPointsID (exec undo d1) = [10; 11; 12; 13]%nat.
Proof.
  intros d1.
  destruct (undo_takes_one_point_of_cluster replay_normal named_color (mk_event 100 100)
              fresh_store
              [(170 # 2, 220 # 2); (180 # 2, 230 # 2); (190 # 2, 170 # 2);
               (200 # 2, 180 # 2)]
              (210 # 2, 190 # 2))
    as (H1 & _ & H2 & H3 & _); [by vm_compute|by vm_compute|].
  fold d1 in H1, H2, H3. rewrite H1, H2, H3. repeat split.
Defined.

(** X13. [undo] takes back a [_draw_point], except for the id counter:
    when the canvas has no item under its next id, adding a point with
    an accepted colour and undoing it gives back the lists and the canvas
    items exactly, and every other attribute; only the counter has moved
    on, so the handle is never handed out again. *)
Theorem undo_after_draw_point {Rng : Type} (color_ok : cell -> bool) (x y : Q) (c : cell)
        (d : @Dataset Rng) :
  color_ok c = true ->
  items (drawingArea d) !! next_id (drawingArea d) = None ->
  let d1 := exec (_draw_point color_ok (CNum x) (CNum y) c) d in
  undo d1 =
  (Return tt,
   with_drawingArea {| next_id := S (next_id (drawingArea d));
                       items := items (drawingArea d) |} d).
Proof.
  intros Hc Hfree d1. unfold d1, exec. rewrite draw_point_ok by done. cbn [snd].
  rewrite (undo_ok (myData d) (x, y, c) (myPointsID d) (next_id (drawingArea d)));
    [|reflexivity|reflexivity].
  f_equal. unfold stored, canvas_add, canvas_delete. simpl.
  rewrite delete_insert_id by done. by destruct d.
Qed.

Lemma undo_after_draw_point_witness :
  let d1 := exec (_draw_point named_color (CNum 4) (CNum 5) (CStr "green")) fresh_store in
  myData d1 = [(4, 5, CStr "green")] /\
  undo d1 = (Return tt, with_drawingArea {| next_id := 11; items := ∅ |} fresh_store).
Proof.
  intros d1. split; [by vm_compute|].
  apply (undo_after_draw_point named_color 4 5 (CStr "green") fresh_store); reflexivity.
Defined.

(** ** Files *)



(** ** The rest of the window *)

(** X15. The object only ever deletes markers it created. After any
    sequence of operations on an object built on a canvas, whatever they
    raise, every item the canvas held under an id below its counter
    before the object was built is still there unchanged, the counter has
    not gone back, and every handle in [myPointsID] was handed out after
    the build. *)
Theorem foreign_items_untouched {Rng : Type}
        (normal : Rng -> Q -> Q -> nat -> list Q * Rng) (color_ok : cell -> bool)
        (area : Canvas) (sigma nbr : Q) (g : Rng) (fs : gmap string DataFrame)
        (os : list op) (h : nat) :
  (h < next_id area)%nat ->
  let d := run_ops normal color_ok os (init area sigma nbr g fs) in
  items (drawingArea d) !! h = items area !! h /\
  (next_id area <= next_id (drawingArea d))%nat /\
  (forall k, k ∈ myPointsID d -> (next_id area <= k)%nat).
Proof.
  intros Hh d.
  assert (Hk : keeps_foreign area d).
  { apply kf_run_ops. split; [done|]. split; [|done]. intros k Hin. inversion Hin. }
  destruct Hk as (H1 & H2 & H3). split; [by apply H3|]. by split.
Qed.

Lemma foreign_items_untouched_witness :
  let d := run_ops replay_normal named_color session (init framed_canvas 10 5 0%nat ∅) in
  items (drawingArea d) !! 3%nat =
  Some {| x0 := 1; y0 := 1; x1 := 300; y1 := 30; fill := CStr "grey" |}.
Proof.
  intros d.
  destruct (foreign_items_untouched replay_normal named_color framed_canvas 10 5 0%nat ∅
              session 3) as (Hitem & _); [simpl; lia|].
  fold d in Hitem. rewrite Hitem. by vm_compute.
Defined.

(** ** Class selection and failing handlers *)

(** X16. The class chosen last decides what the next press does,
    whatever class was current before. After [setClass] with one of the
    three colour buttons (the toolkit knowing the colours) a press
    returns and appends one cluster, every point of it labelled with that
    colour; after [setClass("erase")] a press adds no point: the points
    after it are a sublist of the points before. *)
Theorem class_selects_label {Rng : Type} (normal : Rng -> Q -> Q -> nat -> list Q * Rng)
        (color_ok : cell -> bool) (b : button) (event : Event) (d : @Dataset Rng) :
  knows_labels color_ok ->
  let d' := run_ops normal color_ok [SetClass b; Press event] d in
  (b <> Erase ->
   myData d' = myData d ++ (labelled (button_name b) <$> fst (sampled normal event d)) /\
   classPoint d' = button_name b) /\
  (b = Erase -> myData d' `sublist_of` myData d /\ np_random d' = np_random d).
Proof.
  intros (Hr & Hg & Hb) d'. unfold d', run_ops. simpl foldl.
  set (d1 := exec (setClass (button_name b)) d).
  assert (Hd1 : d1 = with_classPoint (button_name b) d) by reflexivity.
  split.
  - intros Hne.
    assert (Hc : color_ok (CStr (classPoint d1)) = true) by (rewrite Hd1; by destruct b).
    assert (He : String.eqb (classPoint d1) "erase" = false)
      by (rewrite Hd1; by destruct b).
    unfold exec at 1 2. simpl run_op. rewrite (pressButton_draw normal color_ok event d1 He).
    rewrite makeScatter_ok by exact Hc. cbn [snd].
    rewrite scattered_myData. split; [reflexivity|].
    destruct (same_controls_scattered
                (fst (sampled normal event
                        (with_last_drawn (Some (ev_x event)) (Some (ev_y event)) d1)))
                (with_np_random
                   (snd (sampled normal event
                           (with_last_drawn (Some (ev_x event)) (Some (ev_y event)) d1)))
                   (with_last_drawn (Some (ev_x event)) (Some (ev_y event)) d1)))
      as (Hcl & _). rewrite Hcl. reflexivity.
  - intros ->. simpl run_op.
    destruct (press_erase_shrinks normal color_ok event d1 eq_refl)
      as (_ & _ & _ & Hg' & _ & Hsub & _).
    split; [exact Hsub|exact Hg'].
Qed.

Lemma class_selects_label_witness :
  let d' := run_ops replay_normal named_color [SetClass Red; Press (mk_event 30 40)]
              pressed_at_origin in
  length (myData d') = 10%nat /\ classPoint d' = "red"%string.
Proof.
  intros d'.
  destruct (class_selects_label replay_normal named_color Red (mk_event 30 40)
              pressed_at_origin) as (Hcol & _); [by repeat split|].
  destruct Hcol as (Hdata & Hclass); [discriminate|].
  fold d' in Hdata, Hclass. rewrite Hdata, Hclass. split; by vm_compute.
Defined.

(** X17. [releaseButton] resets the recorded position only when its
    final move check returns. If the release is 5 or more away from the
    last sampled position, the class is a drawing class whose colour the
    canvas rejects, and at least one pair is sampled, the release raises
    [TclError] and the recorded position is not cleared: it is the
    position of the release. *)
Theorem release_that_raises_keeps_position {Rng : Type}
        (normal : Rng -> Q -> Q -> nat -> list Q * Rng) (color_ok : cell -> bool)
        (event : Event) (d : @Dataset Rng) (lx ly : Z) :
  last_drawn_x d = Some lx -> last_drawn_y d = Some ly -> threshold d = 5%Z ->
  (25 <= moved_sq lx ly event)%Z ->
  classPoint d <> "erase"%string ->
  color_ok (CStr (classPoint d)) = false ->
  fst (sampled normal event d) <> [] ->
  let d' := exec (releaseButton normal color_ok event) d in
  result (releaseButton normal color_ok event) d = Raise TclError /\
  last_drawn_x d' = Some (ev_x event) /\ last_drawn_y d' = Some (ev_y event) /\
  length (myData d') = S (length (myData d)) /\ myPointsID d' = myPointsID d.
Proof.
  intros Hx Hy Ht Hfar He Hc Hs d'.
  set (d1 := with_last_drawn (Some (ev_x event)) (Some (ev_y event)) d).
  destruct (fst (sampled normal event d)) as [|xy rest] eqn:Hpts; [done|].
  assert (Hmove : moveButton normal color_ok event d =
                  makeScatter normal color_ok event d1).
  { rewrite (moveButton_dragging normal color_ok event d lx ly Hx Hy), Ht.
    change (5 ^ 2)%Z with 25%Z. fold (moved_sq lx ly event).
    apply Z.leb_le in Hfar. rewrite Hfar.
    apply pressButton_draw. by apply String.eqb_neq. }
  pose proof (makeScatter_rejected normal color_ok event d1 xy rest Hc Hpts) as Hsc.
  assert (Hrel : releaseButton normal color_ok event d =
                 makeScatter normal color_ok event d1).
  { unfold releaseButton, bind. by rewrite Hmove, Hsc. }
  unfold d', exec, result. rewrite Hrel, Hsc. simpl.
  split; [done|]. split; [done|]. split; [done|].
  split; [|done]. rewrite length_app. simpl. lia.
Qed.

Lemma release_that_raises_keeps_position_witness :
  let d := with_classPoint "no such colour" pressed_at_origin in
  result (releaseButton replay_normal named_color (mk_event 30 40)) d = Raise TclError /\
  last_drawn_x (exec (releaseButton replay_normal named_color (mk_event 30 40)) d)
  = Some 30%Z.
Proof.
  intros d.
  assert (H1 : last_drawn_x d = Some 0%Z) by (vm_compute; reflexivity).
  assert (H2 : last_drawn_y d = Some 0%Z) by (vm_compute; reflexivity).
  assert (H3 : threshold d = 5%Z) by (vm_compute; reflexivity).
  assert (H4 : (25 <= moved_sq 0 0 (mk_event 30 40))%Z) by (vm_compute; discriminate).
  assert (H5 : classPoint d <> "erase"%string) by (cbn; discriminate).
  assert (H6 : named_color (CStr (classPoint d)) = false) by (vm_compute; reflexivity).
  assert (H7 : fst (sampled replay_normal (mk_event 30 40) d) <> [])
    by (vm_compute; discriminate).
  destruct (release_that_raises_keeps_position replay_normal named_color (mk_event 30 40)
              d 0 0 H1 H2 H3 H4 H5 H6 H7) as (Hr & Hx & _).
  split; [exact Hr|exact Hx].
Defined.
